(** * Poisson football probability calculator

    A shallow embedding of [src/models/poisson_calculator.py] and the
    properties of its probability / odds engine.

    Modelling conventions.
    - A Python float is a real number: arithmetic is exact, IEEE-754 rounding
      and underflow are not modelled.  The odds are the exception: they are
      a [pyfloat], which has [inf], [-inf] and [nan] beside the finite
      values, and a quotient or product that leaves the binary64 range
      becomes infinite there ([round_overflow]).
    - Where a property depends on the rounding itself, the arithmetic is
      redone in binary64 with the primitive floats (module [B64]), the two
      functions of the mathematical library, [np.exp] and [**], being
      arguments.
    - An instance attribute holds [None] or a float: [option R].
    - A method is a function from the instance to an outcome and the instance
      as the method left it, so that the attributes written before an
      exception was raised stay written.
    - String formatting of the results ([f"{x:.2f}"], [f"{x:.2%}"]) and the
      [pandas] table are presentation: rows carry the numbers that are
      formatted. *)

From Stdlib Require Import Reals Lra Lia List String Bool Arith ZArith.
From Stdlib Require Import Floats Uint63.
Import ListNotations.
Open Scope R_scope.

(** ** Python values, exceptions and outcomes *)

Inductive exn : Type :=
| ValueError (msg : string)
| ZeroDivisionError
| TypeError.

Inductive outcome (A : Type) : Type :=
| Return (a : A)
| Raise (e : exn).

Arguments Return {A} a.
Arguments Raise {A} e.

Definition obind {A B : Type} (c : outcome A) (k : A -> outcome B) : outcome B :=
  match c with
  | Return a => k a
  | Raise e => Raise e
  end.

Notation "'let*' x ':=' c 'in' k" := (obind c (fun x => k))
  (at level 10, x pattern, c at level 100, k at level 200).

(** An attribute of the instance: [None] or a float. *)
Definition attr : Type := option R.

(** Truth value of an attribute, as [all] and [if] test it: [None] and [0.0]
    are false, every other float is true. *)
Definition truthy (v : attr) : bool :=
  match v with
  | None => false
  | Some x => if Req_dec_T x 0 then false else true
  end.

(** The builtin [all] on a list of attributes. *)
Definition all (vs : list attr) : bool := forallb truthy vs.

(** [a / b] on floats. *)
Definition float_truediv (a b : R) : outcome R :=
  if Req_dec_T b 0 then Raise ZeroDivisionError else Return (a / b).

(** [a / b] on integers: true division, the result is a float. *)
Definition int_truediv (a b : Z) : outcome R :=
  if Z.eqb b 0 then Raise ZeroDivisionError else Return (IZR a / IZR b).

(** [a / b] and [a * b] on attributes: [None] is not a number. *)
Definition truediv (a b : attr) : outcome R :=
  match a, b with
  | Some x, Some y => float_truediv x y
  | _, _ => Raise TypeError
  end.

Definition mul (a b : attr) : outcome R :=
  match a, b with
  | Some x, Some y => Return (x * y)
  | _, _ => Raise TypeError
  end.

(** Floats that may be infinite or undefined (the odds). *)
Inductive pyfloat : Type :=
| Finite (r : R)
| PosInf
| NegInf
| NaN.

(** From this value on, a binary64 result rounds to infinity:
    [2^1024 - 2^970], half a unit in the last place above the largest
    finite float. *)
Definition overflow_bound : R := IZR (2 ^ 1024 - 2 ^ 970).

(** A result of a float operation that may leave the binary64 range. *)
Definition round_overflow (x : R) : pyfloat :=
  if Rle_dec overflow_bound x then PosInf
  else if Rle_dec x (- overflow_bound) then NegInf
  else Finite x.

(** [x * m] for a finite [m]. *)
Definition pyfloat_mul (x : pyfloat) (m : R) : pyfloat :=
  match x with
  | Finite r => round_overflow (r * m)
  | PosInf => if Rlt_dec 0 m then PosInf else if Rlt_dec m 0 then NegInf else NaN
  | NegInf => if Rlt_dec 0 m then NegInf else if Rlt_dec m 0 then PosInf else NaN
  | NaN => NaN
  end.

(** ** The instance *)

Record PoissonCalculator : Type := {
  home_avg_goals_for : attr;
  home_avg_goals_against : attr;
  away_avg_goals_for : attr;
  away_avg_goals_against : attr;
  league_avg_goals : attr;
  using_detailed_averages : bool;
  league_home_goals_for : attr;
  league_home_goals_against : attr;
  league_away_goals_for : attr;
  league_away_goals_against : attr;
  home_attack_strength : attr;
  home_defense_strength : attr;
  away_attack_strength : attr;
  away_defense_strength : attr
}.

(** [__init__] *)
Definition init : PoissonCalculator := {|
  home_avg_goals_for := None;
  home_avg_goals_against := None;
  away_avg_goals_for := None;
  away_avg_goals_against := None;
  league_avg_goals := None;
  using_detailed_averages := false;
  league_home_goals_for := None;
  league_home_goals_against := None;
  league_away_goals_for := None;
  league_away_goals_against := None;
  home_attack_strength := None;
  home_defense_strength := None;
  away_attack_strength := None;
  away_defense_strength := None
|}.

(** Attribute assignment, one function per attribute. *)
Definition set_home_avg_goals_for (v : attr) (self : PoissonCalculator) :=
  {| home_avg_goals_for := v;
     home_avg_goals_against := home_avg_goals_against self;
     away_avg_goals_for := away_avg_goals_for self;
     away_avg_goals_against := away_avg_goals_against self;
     league_avg_goals := league_avg_goals self;
     using_detailed_averages := using_detailed_averages self;
     league_home_goals_for := league_home_goals_for self;
     league_home_goals_against := league_home_goals_against self;
     league_away_goals_for := league_away_goals_for self;
     league_away_goals_against := league_away_goals_against self;
     home_attack_strength := home_attack_strength self;
     home_defense_strength := home_defense_strength self;
     away_attack_strength := away_attack_strength self;
     away_defense_strength := away_defense_strength self |}.

Definition set_home_avg_goals_against (v : attr) (self : PoissonCalculator) :=
  {| home_avg_goals_for := home_avg_goals_for self;
     home_avg_goals_against := v;
     away_avg_goals_for := away_avg_goals_for self;
     away_avg_goals_against := away_avg_goals_against self;
     league_avg_goals := league_avg_goals self;
     using_detailed_averages := using_detailed_averages self;
     league_home_goals_for := league_home_goals_for self;
     league_home_goals_against := league_home_goals_against self;
     league_away_goals_for := league_away_goals_for self;
     league_away_goals_against := league_away_goals_against self;
     home_attack_strength := home_attack_strength self;
     home_defense_strength := home_defense_strength self;
     away_attack_strength := away_attack_strength self;
     away_defense_strength := away_defense_strength self |}.

Definition set_away_avg_goals_for (v : attr) (self : PoissonCalculator) :=
  {| home_avg_goals_for := home_avg_goals_for self;
     home_avg_goals_against := home_avg_goals_against self;
     away_avg_goals_for := v;
     away_avg_goals_against := away_avg_goals_against self;
     league_avg_goals := league_avg_goals self;
     using_detailed_averages := using_detailed_averages self;
     league_home_goals_for := league_home_goals_for self;
     league_home_goals_against := league_home_goals_against self;
     league_away_goals_for := league_away_goals_for self;
     league_away_goals_against := league_away_goals_against self;
     home_attack_strength := home_attack_strength self;
     home_defense_strength := home_defense_strength self;
     away_attack_strength := away_attack_strength self;
     away_defense_strength := away_defense_strength self |}.

Definition set_away_avg_goals_against (v : attr) (self : PoissonCalculator) :=
  {| home_avg_goals_for := home_avg_goals_for self;
     home_avg_goals_against := home_avg_goals_against self;
     away_avg_goals_for := away_avg_goals_for self;
     away_avg_goals_against := v;
     league_avg_goals := league_avg_goals self;
     using_detailed_averages := using_detailed_averages self;
     league_home_goals_for := league_home_goals_for self;
     league_home_goals_against := league_home_goals_against self;
     league_away_goals_for := league_away_goals_for self;
     league_away_goals_against := league_away_goals_against self;
     home_attack_strength := home_attack_strength self;
     home_defense_strength := home_defense_strength self;
     away_attack_strength := away_attack_strength self;
     away_defense_strength := away_defense_strength self |}.

Definition set_league_avg_goals (v : attr) (self : PoissonCalculator) :=
  {| home_avg_goals_for := home_avg_goals_for self;
     home_avg_goals_against := home_avg_goals_against self;
     away_avg_goals_for := away_avg_goals_for self;
     away_avg_goals_against := away_avg_goals_against self;
     league_avg_goals := v;
     using_detailed_averages := using_detailed_averages self;
     league_home_goals_for := league_home_goals_for self;
     league_home_goals_against := league_home_goals_against self;
     league_away_goals_for := league_away_goals_for self;
     league_away_goals_against := league_away_goals_against self;
     home_attack_strength := home_attack_strength self;
     home_defense_strength := home_defense_strength self;
     away_attack_strength := away_attack_strength self;
     away_defense_strength := away_defense_strength self |}.

Definition set_using_detailed_averages (b : bool) (self : PoissonCalculator) :=
  {| home_avg_goals_for := home_avg_goals_for self;
     home_avg_goals_against := home_avg_goals_against self;
     away_avg_goals_for := away_avg_goals_for self;
     away_avg_goals_against := away_avg_goals_against self;
     league_avg_goals := league_avg_goals self;
     using_detailed_averages := b;
     league_home_goals_for := league_home_goals_for self;
     league_home_goals_against := league_home_goals_against self;
     league_away_goals_for := league_away_goals_for self;
     league_away_goals_against := league_away_goals_against self;
     home_attack_strength := home_attack_strength self;
     home_defense_strength := home_defense_strength self;
     away_attack_strength := away_attack_strength self;
     away_defense_strength := away_defense_strength self |}.

Definition set_league_home_goals_for (v : attr) (self : PoissonCalculator) :=
  {| home_avg_goals_for := home_avg_goals_for self;
     home_avg_goals_against := home_avg_goals_against self;
     away_avg_goals_for := away_avg_goals_for self;
     away_avg_goals_against := away_avg_goals_against self;
     league_avg_goals := league_avg_goals self;
     using_detailed_averages := using_detailed_averages self;
     league_home_goals_for := v;
     league_home_goals_against := league_home_goals_against self;
     league_away_goals_for := league_away_goals_for self;
     league_away_goals_against := league_away_goals_against self;
     home_attack_strength := home_attack_strength self;
     home_defense_strength := home_defense_strength self;
     away_attack_strength := away_attack_strength self;
     away_defense_strength := away_defense_strength self |}.

Definition set_league_home_goals_against (v : attr) (self : PoissonCalculator) :=
  {| home_avg_goals_for := home_avg_goals_for self;
     home_avg_goals_against := home_avg_goals_against self;
     away_avg_goals_for := away_avg_goals_for self;
     away_avg_goals_against := away_avg_goals_against self;
     league_avg_goals := league_avg_goals self;
     using_detailed_averages := using_detailed_averages self;
     league_home_goals_for := league_home_goals_for self;
     league_home_goals_against := v;
     league_away_goals_for := league_away_goals_for self;
     league_away_goals_against := league_away_goals_against self;
     home_attack_strength := home_attack_strength self;
     home_defense_strength := home_defense_strength self;
     away_attack_strength := away_attack_strength self;
     away_defense_strength := away_defense_strength self |}.

Definition set_league_away_goals_for (v : attr) (self : PoissonCalculator) :=
  {| home_avg_goals_for := home_avg_goals_for self;
     home_avg_goals_against := home_avg_goals_against self;
     away_avg_goals_for := away_avg_goals_for self;
     away_avg_goals_against := away_avg_goals_against self;
     league_avg_goals := league_avg_goals self;
     using_detailed_averages := using_detailed_averages self;
     league_home_goals_for := league_home_goals_for self;
     league_home_goals_against := league_home_goals_against self;
     league_away_goals_for := v;
     league_away_goals_against := league_away_goals_against self;
     home_attack_strength := home_attack_strength self;
     home_defense_strength := home_defense_strength self;
     away_attack_strength := away_attack_strength self;
     away_defense_strength := away_defense_strength self |}.

Definition set_league_away_goals_against (v : attr) (self : PoissonCalculator) :=
  {| home_avg_goals_for := home_avg_goals_for self;
     home_avg_goals_against := home_avg_goals_against self;
     away_avg_goals_for := away_avg_goals_for self;
     away_avg_goals_against := away_avg_goals_against self;
     league_avg_goals := league_avg_goals self;
     using_detailed_averages := using_detailed_averages self;
     league_home_goals_for := league_home_goals_for self;
     league_home_goals_against := league_home_goals_against self;
     league_away_goals_for := league_away_goals_for self;
     league_away_goals_against := v;
     home_attack_strength := home_attack_strength self;
     home_defense_strength := home_defense_strength self;
     away_attack_strength := away_attack_strength self;
     away_defense_strength := away_defense_strength self |}.

Definition set_home_attack_strength (v : attr) (self : PoissonCalculator) :=
  {| home_avg_goals_for := home_avg_goals_for self;
     home_avg_goals_against := home_avg_goals_against self;
     away_avg_goals_for := away_avg_goals_for self;
     away_avg_goals_against := away_avg_goals_against self;
     league_avg_goals := league_avg_goals self;
     using_detailed_averages := using_detailed_averages self;
     league_home_goals_for := league_home_goals_for self;
     league_home_goals_against := league_home_goals_against self;
     league_away_goals_for := league_away_goals_for self;
     league_away_goals_against := league_away_goals_against self;
     home_attack_strength := v;
     home_defense_strength := home_defense_strength self;
     away_attack_strength := away_attack_strength self;
     away_defense_strength := away_defense_strength self |}.

Definition set_home_defense_strength (v : attr) (self : PoissonCalculator) :=
  {| home_avg_goals_for := home_avg_goals_for self;
     home_avg_goals_against := home_avg_goals_against self;
     away_avg_goals_for := away_avg_goals_for self;
     away_avg_goals_against := away_avg_goals_against self;
     league_avg_goals := league_avg_goals self;
     using_detailed_averages := using_detailed_averages self;
     league_home_goals_for := league_home_goals_for self;
     league_home_goals_against := league_home_goals_against self;
     league_away_goals_for := league_away_goals_for self;
     league_away_goals_against := league_away_goals_against self;
     home_attack_strength := home_attack_strength self;
     home_defense_strength := v;
     away_attack_strength := away_attack_strength self;
     away_defense_strength := away_defense_strength self |}.

Definition set_away_attack_strength (v : attr) (self : PoissonCalculator) :=
  {| home_avg_goals_for := home_avg_goals_for self;
     home_avg_goals_against := home_avg_goals_against self;
     away_avg_goals_for := away_avg_goals_for self;
     away_avg_goals_against := away_avg_goals_against self;
     league_avg_goals := league_avg_goals self;
     using_detailed_averages := using_detailed_averages self;
     league_home_goals_for := league_home_goals_for self;
     league_home_goals_against := league_home_goals_against self;
     league_away_goals_for := league_away_goals_for self;
     league_away_goals_against := league_away_goals_against self;
     home_attack_strength := home_attack_strength self;
     home_defense_strength := home_defense_strength self;
     away_attack_strength := v;
     away_defense_strength := away_defense_strength self |}.

Definition set_away_defense_strength (v : attr) (self : PoissonCalculator) :=
  {| home_avg_goals_for := home_avg_goals_for self;
     home_avg_goals_against := home_avg_goals_against self;
     away_avg_goals_for := away_avg_goals_for self;
     away_avg_goals_against := away_avg_goals_against self;
     league_avg_goals := league_avg_goals self;
     using_detailed_averages := using_detailed_averages self;
     league_home_goals_for := league_home_goals_for self;
     league_home_goals_against := league_home_goals_against self;
     league_away_goals_for := league_away_goals_for self;
     league_away_goals_against := league_away_goals_against self;
     home_attack_strength := home_attack_strength self;
     home_defense_strength := home_defense_strength self;
     away_attack_strength := away_attack_strength self;
     away_defense_strength := v |}.

(** ** Methods: the instance is threaded, an exception keeps it as it was left *)

Definition method (A : Type) : Type :=
  PoissonCalculator -> outcome A * PoissonCalculator.

Definition ret {A : Type} (a : A) : method A := fun self => (Return a, self).

Definition raise {A : Type} (e : exn) : method A := fun self => (Raise e, self).

Definition bind {A B : Type} (c : method A) (k : A -> method B) : method B :=
  fun self =>
    match c self with
    | (Return a, self') => k a self'
    | (Raise e, self') => (Raise e, self')
    end.

Notation "x <- c ;; k" := (bind c (fun x => k))
  (at level 200, c at level 100, k at level 200, right associativity).
Notation "c ;;; k" := (bind c (fun _ => k))
  (at level 200, k at level 200, right associativity).

(** Evaluate an expression over the attributes of [self]. *)
Definition eval {A : Type} (e : PoissonCalculator -> outcome A) : method A :=
  fun self => (e self, self).

(** [self.x = v] *)
Definition assign (upd : PoissonCalculator -> PoissonCalculator) : method unit :=
  fun self => (Return tt, upd self).

(** ** Configuration *)

Definition set_team_averages
    (home_goals_for home_goals_against away_goals_for away_goals_against
     league_avg : R) : method unit :=
  assign (set_home_avg_goals_for (Some home_goals_for)) ;;;
  assign (set_home_avg_goals_against (Some home_goals_against)) ;;;
  assign (set_away_avg_goals_for (Some away_goals_for)) ;;;
  assign (set_away_avg_goals_against (Some away_goals_against)) ;;;
  assign (set_league_avg_goals (Some league_avg)) ;;;
  assign (set_using_detailed_averages false).

Definition set_team_averages_detailed
    (home_goals_for home_goals_against away_goals_for away_goals_against
     league_home_for league_away_for : R) : method unit :=
  assign (set_home_avg_goals_for (Some home_goals_for)) ;;;
  assign (set_home_avg_goals_against (Some home_goals_against)) ;;;
  assign (set_away_avg_goals_for (Some away_goals_for)) ;;;
  assign (set_away_avg_goals_against (Some away_goals_against)) ;;;
  assign (set_league_home_goals_for (Some league_home_for)) ;;;
  assign (set_league_away_goals_for (Some league_away_for)) ;;;
  assign (set_league_home_goals_against (Some league_away_for)) ;;;
  assign (set_league_away_goals_against (Some league_home_for)) ;;;
  assign (set_using_detailed_averages true).

(** The totals are integers; each right-hand side is evaluated, and may
    raise, before its attribute is written. *)
Definition set_team_from_totals_detailed
    (home_games home_goals_scored home_goals_conceded
     away_games away_goals_scored away_goals_conceded : Z)
    (league_home_for league_away_for : R) : method unit :=
  v <- eval (fun _ => int_truediv home_goals_scored home_games) ;;
  assign (set_home_avg_goals_for (Some v)) ;;;
  v <- eval (fun _ => int_truediv home_goals_conceded home_games) ;;
  assign (set_home_avg_goals_against (Some v)) ;;;
  v <- eval (fun _ => int_truediv away_goals_scored away_games) ;;
  assign (set_away_avg_goals_for (Some v)) ;;;
  v <- eval (fun _ => int_truediv away_goals_conceded away_games) ;;
  assign (set_away_avg_goals_against (Some v)) ;;;
  assign (set_league_home_goals_for (Some league_home_for)) ;;;
  assign (set_league_away_goals_for (Some league_away_for)) ;;;
  assign (set_league_home_goals_against (Some league_away_for)) ;;;
  assign (set_league_away_goals_against (Some league_home_for)) ;;;
  assign (set_using_detailed_averages true).

Definition set_team_from_totals
    (home_games home_goals_scored home_goals_conceded
     away_games away_goals_scored away_goals_conceded : Z)
    (league_avg : R) : method unit :=
  v <- eval (fun _ => int_truediv home_goals_scored home_games) ;;
  assign (set_home_avg_goals_for (Some v)) ;;;
  v <- eval (fun _ => int_truediv home_goals_conceded home_games) ;;
  assign (set_home_avg_goals_against (Some v)) ;;;
  v <- eval (fun _ => int_truediv away_goals_scored away_games) ;;
  assign (set_away_avg_goals_for (Some v)) ;;;
  v <- eval (fun _ => int_truediv away_goals_conceded away_games) ;;
  assign (set_away_avg_goals_against (Some v)) ;;;
  assign (set_league_avg_goals (Some league_avg)) ;;;
  assign (set_using_detailed_averages false).

(** ** Strengths and goal expectancy *)

Definition calculate_strengths : method unit :=
  detailed <- eval (fun self => Return (using_detailed_averages self)) ;;
  if detailed then
    set <- eval (fun self => Return (all
             [home_avg_goals_for self; home_avg_goals_against self;
              away_avg_goals_for self; away_avg_goals_against self;
              league_home_goals_for self; league_home_goals_against self;
              league_away_goals_for self; league_away_goals_against self])) ;;
    if negb set then
      raise (ValueError
        "Team and detailed league averages must be set before calculating strengths")
    else
      v <- eval (fun self => truediv (home_avg_goals_for self) (league_home_goals_for self)) ;;
      assign (set_home_attack_strength (Some v)) ;;;
      v <- eval (fun self => truediv (home_avg_goals_against self) (league_away_goals_for self)) ;;
      assign (set_home_defense_strength (Some v)) ;;;
      v <- eval (fun self => truediv (away_avg_goals_for self) (league_away_goals_for self)) ;;
      assign (set_away_attack_strength (Some v)) ;;;
      v <- eval (fun self => truediv (away_avg_goals_against self) (league_home_goals_for self)) ;;
      assign (set_away_defense_strength (Some v))
  else
    set <- eval (fun self => Return (all
             [home_avg_goals_for self; home_avg_goals_against self;
              away_avg_goals_for self; away_avg_goals_against self;
              league_avg_goals self])) ;;
    if negb set then
      raise (ValueError "Team averages must be set before calculating strengths")
    else
      v <- eval (fun self => truediv (home_avg_goals_for self) (league_avg_goals self)) ;;
      assign (set_home_attack_strength (Some v)) ;;;
      v <- eval (fun self => truediv (home_avg_goals_against self) (league_avg_goals self)) ;;
      assign (set_home_defense_strength (Some v)) ;;;
      v <- eval (fun self => truediv (away_avg_goals_for self) (league_avg_goals self)) ;;
      assign (set_away_attack_strength (Some v)) ;;;
      v <- eval (fun self => truediv (away_avg_goals_against self) (league_avg_goals self)) ;;
      assign (set_away_defense_strength (Some v)).

(** [a * b * c] is [(a * b) * c]. *)
Definition mul3 (a b c : attr) : outcome R :=
  let* ab := mul a b in mul (Some ab) c.

Definition _calculate_goal_expectancy : method (R * R) :=
  set <- eval (fun self => Return (all
           [home_attack_strength self; home_defense_strength self;
            away_attack_strength self; away_defense_strength self])) ;;
  if negb set then
    raise (ValueError "Strengths must be calculated before goal expectancy")
  else
    detailed <- eval (fun self => Return (using_detailed_averages self)) ;;
    if detailed then
      home_goal_expectancy <- eval (fun self =>
        mul3 (home_attack_strength self) (away_defense_strength self)
             (league_home_goals_for self)) ;;
      away_goal_expectancy <- eval (fun self =>
        mul3 (away_attack_strength self) (home_defense_strength self)
             (league_away_goals_for self)) ;;
      ret (home_goal_expectancy, away_goal_expectancy)
    else
      home_goal_expectancy <- eval (fun self =>
        mul3 (home_attack_strength self) (away_defense_strength self)
             (league_avg_goals self)) ;;
      away_goal_expectancy <- eval (fun self =>
        mul3 (away_attack_strength self) (home_defense_strength self)
             (league_avg_goals self)) ;;
      ret (home_goal_expectancy, away_goal_expectancy).

(** ** Scoreline matrix *)

(** [(lam ** k) * np.exp(-lam) / math.factorial(k)]; [k] comes from a
    [range], so it is a natural number and the factorial is not zero. *)
Definition _poisson_pmf (k : nat) (lam : R) : R :=
  lam ^ k * exp (- lam) / INR (fact k).

(** A two-dimensional array, as a list of rows. *)
Definition matrix : Type := list (list R).

(** [np.zeros((rows, cols))] *)
Definition zeros (rows cols : nat) : matrix := repeat (repeat 0 cols) rows.

(** [l[n] = v]; the loops below only write inside the array, and a write
    outside it is left without effect here. *)
Fixpoint set_nth {A : Type} (n : nat) (v : A) (l : list A) : list A :=
  match l, n with
  | [], _ => []
  | _ :: t, O => v :: t
  | h :: t, S n' => h :: set_nth n' v t
  end.

(** [m[i][j]] and [m[i][j] = v] *)
Definition getitem2 (m : matrix) (i j : nat) : R := nth j (nth i m []) 0.

Definition setitem2 (m : matrix) (i j : nat) (v : R) : matrix :=
  set_nth i (set_nth j v (nth i m [])) m.

(** [range(n)] *)
Definition range (n : nat) : list nat := seq 0 n.

Definition default_max_goals : nat := 8.

Definition _generate_scoreline_probabilities
    (home_expectancy away_expectancy : R) (max_goals : nat) : matrix :=
  let goals_range := range (max_goals + 1) in
  let prob_matrix := zeros (max_goals + 1) (max_goals + 1) in
  fold_left (fun prob_matrix home_goals =>
    fold_left (fun prob_matrix away_goals =>
      let home_prob := _poisson_pmf home_goals home_expectancy in
      let away_prob := _poisson_pmf away_goals away_expectancy in
      setitem2 prob_matrix home_goals away_goals (home_prob * away_prob))
      goals_range prob_matrix)
    goals_range prob_matrix.

(** ** Over/Under markets *)

Record market : Type := {
  under_probability : R;
  over_probability : R;
  under_odds : pyfloat;
  over_odds : pyfloat
}.

Definition thresholds : list R := [0.5; 1.5; 2.5; 3.5].

(** [d[key] = value] on a dict, which keeps insertion order.  The key
    [f"Under {threshold}"] is represented by its threshold. *)
Fixpoint dict_set {V : Type} (key : R) (value : V) (d : list (R * V))
    : list (R * V) :=
  match d with
  | [] => [(key, value)]
  | (k, v) :: rest =>
      if Req_dec_T k key then (k, value) :: rest
      else (k, v) :: dict_set key value rest
  end.

(** The two nested loops that accumulate [under_prob], starting from 0. *)
Definition under_prob_of (prob_matrix : matrix) (threshold : R) : R :=
  fold_left (fun under_prob home_goals =>
    fold_left (fun under_prob away_goals =>
      let total_goals := (home_goals + away_goals)%nat in
      if Rle_dec (INR total_goals) threshold
      then under_prob + getitem2 prob_matrix home_goals away_goals
      else under_prob)
      (range (List.length (nth 0 prob_matrix []))) under_prob)
    (range (List.length prob_matrix)) 0.

(** [1 / prob if prob > 0 else float('inf')]; the quotient of a very small
    probability overflows to [inf]. *)
Definition odds_of (prob : R) : outcome pyfloat :=
  if Rlt_dec 0 prob
  then let* q := float_truediv 1 prob in Return (round_overflow q)
  else Return PosInf.

Fixpoint over_under_loop (prob_matrix : matrix) (todo : list R)
    (results : list (R * market)) : outcome (list (R * market)) :=
  match todo with
  | [] => Return results
  | threshold :: todo' =>
      let under_prob := under_prob_of prob_matrix threshold in
      let over_prob := 1 - under_prob in
      let* under := odds_of under_prob in
      let* over := odds_of over_prob in
      over_under_loop prob_matrix todo'
        (dict_set threshold
           {| under_probability := under_prob;
              over_probability := over_prob;
              under_odds := under;
              over_odds := over |} results)
  end.

Definition _calculate_over_under_probabilities (prob_matrix : matrix)
    : outcome (list (R * market)) :=
  over_under_loop prob_matrix thresholds [].

Definition default_margin_percent : R := 3.

Definition _apply_margin (odds : pyfloat) (margin_percent : R) : pyfloat :=
  let margin_multiplier := 1 + margin_percent / 100 in
  pyfloat_mul odds margin_multiplier.

(** ** Summary and market table *)

Record summary : Type := {
  Home_Team_Expected_Goals : R;
  Away_Team_Expected_Goals : R;
  Total_Expected_Goals : R;
  Home_Attack_Strength : attr;
  Home_Defense_Strength : attr;
  Away_Attack_Strength : attr;
  Away_Defense_Strength : attr
}.

Definition get_summary_info : method summary :=
  set <- eval (fun self => Return (all
           [home_attack_strength self; away_attack_strength self])) ;;
  if negb set then
    raise (ValueError "Strengths must be calculated before getting summary info")
  else
    expectancy <- _calculate_goal_expectancy ;;
    let '(home_expectancy, away_expectancy) := expectancy in
    eval (fun self => Return
      {| Home_Team_Expected_Goals := home_expectancy;
         Away_Team_Expected_Goals := away_expectancy;
         Total_Expected_Goals := home_expectancy + away_expectancy;
         Home_Attack_Strength := home_attack_strength self;
         Home_Defense_Strength := home_defense_strength self;
         Away_Attack_Strength := away_attack_strength self;
         Away_Defense_Strength := away_defense_strength self |}).

Record row : Type := {
  Market : R;
  Probability : R;
  Fair_Odds : pyfloat;
  Odds_Margin : pyfloat;
  Opposite_Probability : R;
  Opposite_Odds_Margin : pyfloat
}.

Definition market_row (margin_percent : R) (item : R * market) : row :=
  let '(market, data) := item in
  let under_odds_with_margin := _apply_margin (under_odds data) margin_percent in
  let over_odds_with_margin := _apply_margin (over_odds data) margin_percent in
  {| Market := market;
     Probability := under_probability data;
     Fair_Odds := under_odds data;
     Odds_Margin := under_odds_with_margin;
     Opposite_Probability := over_probability data;
     Opposite_Odds_Margin := over_odds_with_margin |}.

Definition generate_market_analysis (margin_percent : R) : method (list row) :=
  set <- eval (fun self => Return (all
           [home_attack_strength self; away_attack_strength self])) ;;
  if negb set then
    raise (ValueError "Strengths must be calculated before generating market analysis")
  else
    expectancy <- _calculate_goal_expectancy ;;
    let '(home_expectancy, away_expectancy) := expectancy in
    let prob_matrix :=
      _generate_scoreline_probabilities home_expectancy away_expectancy
        default_max_goals in
    over_under_results <-
      eval (fun _ => _calculate_over_under_probabilities prob_matrix) ;;
    ret (map (market_row margin_percent) over_under_results).

(** * Notions used by the properties *)

(** ** Arrays and finite sums *)

(** An array of [r] rows of [c] cells each. *)
Definition shaped (r c : nat) (m : matrix) : Prop :=
  List.length m = r /\
  forall i, (i < r)%nat -> List.length (nth i m []) = c.

(** The sum of [f i] for [i] in [l]. *)
Definition Rsum (l : list nat) (f : nat -> R) : R :=
  fold_right (fun i acc => f i + acc) 0 l.

(** The cell of [m] at [(i, j)] when the total [i + j] is at most [t],
    else 0: what one turn of the inner loop adds. *)
Definition counted (m : matrix) (t : R) (i j : nat) : R :=
  if Rle_dec (INR (i + j)) t then getitem2 m i j else 0.

(** The cells of [m] whose total is at most [t], and the sum of a list of
    cells. *)
Definition cells_at_most (m : matrix) (t : R) : list (nat * nat) :=
  filter (fun c => if Rle_dec (INR (fst c + snd c)) t then true else false)
    (list_prod (range (List.length m)) (range (List.length (nth 0 m [])))).

Definition sum_cells (m : matrix) (cells : list (nat * nat)) : R :=
  fold_right Rplus 0 (map (fun c => getitem2 m (fst c) (snd c)) cells).

(** The instance after [calculate_strengths] has written the four strengths. *)
Definition with_strengths (home_attack home_defense away_attack away_defense : R)
    (self : PoissonCalculator) : PoissonCalculator :=
  set_away_defense_strength (Some away_defense)
    (set_away_attack_strength (Some away_attack)
      (set_home_defense_strength (Some home_defense)
        (set_home_attack_strength (Some home_attack) self))).

(** ** The markets as values *)

(** The odds that [odds_of] returns. *)
Definition odds_value (prob : R) : pyfloat :=
  if Rlt_dec 0 prob then round_overflow (1 / prob) else PosInf.

Definition market_at (prob_matrix : matrix) (threshold : R) : market :=
  {| under_probability := under_prob_of prob_matrix threshold;
     over_probability := 1 - under_prob_of prob_matrix threshold;
     under_odds := odds_value (under_prob_of prob_matrix threshold);
     over_odds := odds_value (1 - under_prob_of prob_matrix threshold) |}.

(** The table that [generate_market_analysis] returns for the expectancies
    [home_expectancy] and [away_expectancy]. *)
Definition market_table (margin_percent home_expectancy away_expectancy : R)
    : list row :=
  map (market_row margin_percent)
    (map (fun t =>
            (t, market_at (_generate_scoreline_probabilities home_expectancy
                             away_expectancy default_max_goals) t))
       thresholds).

(** ** Callers: configure, compute the strengths, analyse *)

(** What a caller collects ([gui/main_window.py], [calculate_probabilities]):
    per-game averages or totals for both teams, with one league average or
    with the league's home-scoring and away-scoring averages. *)
Inductive input_data : Type :=
| averages (home_goals_for home_goals_against
            away_goals_for away_goals_against league_avg : R)
| averages_detailed (home_goals_for home_goals_against
                     away_goals_for away_goals_against
                     league_home_for league_away_for : R)
| totals (home_games home_goals_scored home_goals_conceded
          away_games away_goals_scored away_goals_conceded : Z)
         (league_avg : R)
| totals_detailed (home_games home_goals_scored home_goals_conceded
                   away_games away_goals_scored away_goals_conceded : Z)
                  (league_home_for league_away_for : R).

Definition configure (d : input_data) : method unit :=
  match d with
  | averages hf ha af aa l => set_team_averages hf ha af aa l
  | averages_detailed hf ha af aa lh la =>
      set_team_averages_detailed hf ha af aa lh la
  | totals hg hs hc ag gs gc l => set_team_from_totals hg hs hc ag gs gc l
  | totals_detailed hg hs hc ag gs gc lh la =>
      set_team_from_totals_detailed hg hs hc ag gs gc lh la
  end.

Definition calculate_probabilities (d : input_data)
    : method (summary * list row) :=
  configure d ;;;
  calculate_strengths ;;;
  summary_info <- get_summary_info ;;
  market_results <- generate_market_analysis default_margin_percent ;;
  ret (summary_info, market_results).

(** All inputs positive. *)
Definition valid (d : input_data) : Prop :=
  match d with
  | averages hf ha af aa l => 0 < hf /\ 0 < ha /\ 0 < af /\ 0 < aa /\ 0 < l
  | averages_detailed hf ha af aa lh la =>
      0 < hf /\ 0 < ha /\ 0 < af /\ 0 < aa /\ 0 < lh /\ 0 < la
  | totals hg hs hc ag gs gc l =>
      (0 < hg /\ 0 < hs /\ 0 < hc /\ 0 < ag /\ 0 < gs /\ 0 < gc)%Z /\ 0 < l
  | totals_detailed hg hs hc ag gs gc lh la =>
      (0 < hg /\ 0 < hs /\ 0 < hc /\ 0 < ag /\ 0 < gs /\ 0 < gc)%Z /\
      0 < lh /\ 0 < la
  end.

(** The home and away sides exchanged, with the league's home-scoring and
    away-scoring averages when there are two. *)
Definition swap_sides (d : input_data) : input_data :=
  match d with
  | averages hf ha af aa l => averages af aa hf ha l
  | averages_detailed hf ha af aa lh la => averages_detailed af aa hf ha la lh
  | totals hg hs hc ag gs gc l => totals ag gs gc hg hs hc l
  | totals_detailed hg hs hc ag gs gc lh la =>
      totals_detailed ag gs gc hg hs hc la lh
  end.

(** The averages and baselines that an input stands for. *)
Definition home_for (d : input_data) : R :=
  match d with
  | averages hf _ _ _ _ | averages_detailed hf _ _ _ _ _ => hf
  | totals hg hs _ _ _ _ _ | totals_detailed hg hs _ _ _ _ _ _ =>
      IZR hs / IZR hg
  end.

Definition home_against (d : input_data) : R :=
  match d with
  | averages _ ha _ _ _ | averages_detailed _ ha _ _ _ _ => ha
  | totals hg _ hc _ _ _ _ | totals_detailed hg _ hc _ _ _ _ _ =>
      IZR hc / IZR hg
  end.

Definition away_for (d : input_data) : R :=
  match d with
  | averages _ _ af _ _ | averages_detailed _ _ af _ _ _ => af
  | totals _ _ _ ag gs _ _ | totals_detailed _ _ _ ag gs _ _ _ =>
      IZR gs / IZR ag
  end.

Definition away_against (d : input_data) : R :=
  match d with
  | averages _ _ _ aa _ | averages_detailed _ _ _ aa _ _ => aa
  | totals _ _ _ ag _ gc _ | totals_detailed _ _ _ ag _ gc _ _ =>
      IZR gc / IZR ag
  end.

Definition league_home (d : input_data) : R :=
  match d with
  | averages _ _ _ _ l | totals _ _ _ _ _ _ l => l
  | averages_detailed _ _ _ _ lh _ | totals_detailed _ _ _ _ _ _ lh _ => lh
  end.

Definition league_away (d : input_data) : R :=
  match d with
  | averages _ _ _ _ l | totals _ _ _ _ _ _ l => l
  | averages_detailed _ _ _ _ _ la | totals_detailed _ _ _ _ _ _ _ la => la
  end.

Definition detailed (d : input_data) : bool :=
  match d with
  | averages _ _ _ _ _ | totals _ _ _ _ _ _ _ => false
  | averages_detailed _ _ _ _ _ _ | totals_detailed _ _ _ _ _ _ _ _ => true
  end.

(** The expectancies of an input: own attack strength, times the other
    side's defense strength, times the baseline. *)
Definition home_expected (d : input_data) : R :=
  home_for d / league_home d * (away_against d / league_home d) * league_home d.

Definition away_expected (d : input_data) : R :=
  away_for d / league_away d * (home_against d / league_away d) * league_away d.

(** The scenario of the specification: home 1.8 scored and 1.1 conceded,
    away 1.2 scored and 1.3 conceded, league average 2.7. *)
Definition sample_match : input_data := averages 1.8 1.1 1.2 1.3 2.7.

(** A match with expectancies of 8 goals a side. *)
Definition high_scoring_match : input_data := averages 4 4 4 4 2.

(** [f"{p:.2%}"] prints [0.00%]: [p] as a percentage is below half of the
    last printed digit. *)
Definition shows_as_zero_percent (p : R) : Prop :=
  0 <= p /\ p * 100 < 0.005.

(** The instance once configured from [d] and after [calculate_strengths]. *)
Definition prepared (d : input_data) (self : PoissonCalculator)
    : PoissonCalculator :=
  snd ((configure d ;;; calculate_strengths) self).

(** The attributes that configuring from [d] leaves on the instance. *)
Definition holds (d : input_data) (s : PoissonCalculator) : Prop :=
  home_avg_goals_for s = Some (home_for d) /\
  home_avg_goals_against s = Some (home_against d) /\
  away_avg_goals_for s = Some (away_for d) /\
  away_avg_goals_against s = Some (away_against d) /\
  using_detailed_averages s = detailed d /\
  if detailed d
  then league_home_goals_for s = Some (league_home d) /\
       league_away_goals_for s = Some (league_away d) /\
       league_home_goals_against s = Some (league_away d) /\
       league_away_goals_against s = Some (league_home d)
  else league_avg_goals s = Some (league_home d).

(** ** Calls made one after the other on one instance *)

(** The public methods, as a caller invokes them.  A caller that catches an
    exception ([gui/main_window.py], [calculate_probabilities]) goes on
    with the instance as the failed call left it. *)
Inductive call : Type :=
| call_set_team_averages (hf ha af aa league_avg : R)
| call_set_team_averages_detailed (hf ha af aa league_home_for league_away_for : R)
| call_set_team_from_totals (hg hs hc ag gs gc : Z) (league_avg : R)
| call_set_team_from_totals_detailed (hg hs hc ag gs gc : Z)
    (league_home_for league_away_for : R)
| call_calculate_strengths
| call_get_summary_info
| call_generate_market_analysis (margin_percent : R).

Definition after_call (c : call) (self : PoissonCalculator)
    : PoissonCalculator :=
  match c with
  | call_set_team_averages hf ha af aa l =>
      snd (set_team_averages hf ha af aa l self)
  | call_set_team_averages_detailed hf ha af aa lh la =>
      snd (set_team_averages_detailed hf ha af aa lh la self)
  | call_set_team_from_totals hg hs hc ag gs gc l =>
      snd (set_team_from_totals hg hs hc ag gs gc l self)
  | call_set_team_from_totals_detailed hg hs hc ag gs gc lh la =>
      snd (set_team_from_totals_detailed hg hs hc ag gs gc lh la self)
  | call_calculate_strengths => snd (calculate_strengths self)
  | call_get_summary_info => snd (get_summary_info self)
  | call_generate_market_analysis m => snd (generate_market_analysis m self)
  end.

Definition after_calls (cs : list call) (self : PoissonCalculator)
    : PoissonCalculator :=
  fold_left (fun s c => after_call c s) cs self.

(** What every instance reached from a new one satisfies: in detailed mode
    the two league scoring averages are set, in simple mode the league
    average is set once a strength is, and the league conceding averages
    mirror the scoring ones. *)
Definition consistent (self : PoissonCalculator) : Prop :=
  (using_detailed_averages self = true ->
   league_home_goals_for self <> None /\ league_away_goals_for self <> None) /\
  (using_detailed_averages self = false ->
   home_attack_strength self <> None -> league_avg_goals self <> None) /\
  league_home_goals_against self = league_away_goals_for self /\
  league_away_goals_against self = league_home_goals_for self.

(** An outcome that is a result or a ValueError. *)
Definition returns_or_value_error {A : Type} (o : outcome A) : Prop :=
  match o with
  | Return _ => True
  | Raise (ValueError _) => True
  | Raise _ => False
  end.

(** * The arithmetic in binary64 *)

Module B64.

(** The functions of the mathematical library that the code calls:
    [np.exp] and, for a float and an integer, [**]. *)
Record libm : Type := {
  libm_exp : float -> float;
  libm_pow : float -> nat -> float
}.

(** An integer as a float. *)
Definition of_int (n : nat) : float :=
  PrimFloat.of_uint63 (Uint63.of_Z (Z.of_nat n)).

(** Simple mode, for averages that pass the guards: the four quotients of
    [calculate_strengths] and the two products of
    [_calculate_goal_expectancy]. *)
Definition goal_expectancy
    (home_goals_for home_goals_against away_goals_for away_goals_against
     league_avg : float) : float * float :=
  let home_attack_strength := (home_goals_for / league_avg)%float in
  let home_defense_strength := (home_goals_against / league_avg)%float in
  let away_attack_strength := (away_goals_for / league_avg)%float in
  let away_defense_strength := (away_goals_against / league_avg)%float in
  ((home_attack_strength * away_defense_strength * league_avg)%float,
   (away_attack_strength * home_defense_strength * league_avg)%float).

Definition _poisson_pmf (lib : libm) (k : nat) (lam : float) : float :=
  (libm_pow lib lam k * libm_exp lib (- lam) / of_int (fact k))%float.

Definition matrix : Type := list (list float).

Definition zeros (rows cols : nat) : matrix :=
  repeat (repeat 0%float cols) rows.

Definition getitem2 (m : matrix) (i j : nat) : float :=
  nth j (nth i m []) 0%float.

Definition setitem2 (m : matrix) (i j : nat) (v : float) : matrix :=
  set_nth i (set_nth j v (nth i m [])) m.

Definition _generate_scoreline_probabilities (lib : libm)
    (home_expectancy away_expectancy : float) (max_goals : nat) : matrix :=
  let goals_range := range (max_goals + 1) in
  let prob_matrix := zeros (max_goals + 1) (max_goals + 1) in
  fold_left (fun prob_matrix home_goals =>
    fold_left (fun prob_matrix away_goals =>
      let home_prob := _poisson_pmf lib home_goals home_expectancy in
      let away_prob := _poisson_pmf lib away_goals away_expectancy in
      setitem2 prob_matrix home_goals away_goals (home_prob * away_prob)%float)
      goals_range prob_matrix)
    goals_range prob_matrix.

(** The two nested loops that accumulate [under_prob], starting from 0. *)
Definition under_prob_of (prob_matrix : matrix) (threshold : float) : float :=
  fold_left (fun under_prob home_goals =>
    fold_left (fun under_prob away_goals =>
      let total_goals := (home_goals + away_goals)%nat in
      if PrimFloat.leb (of_int total_goals) threshold
      then (under_prob + getitem2 prob_matrix home_goals away_goals)%float
      else under_prob)
      (range (List.length (nth 0 prob_matrix []))) under_prob)
    (range (List.length prob_matrix)) 0%float.

(** [over_prob = 1 - under_prob] *)
Definition over_prob_of (prob_matrix : matrix) (threshold : float) : float :=
  (1 - under_prob_of prob_matrix threshold)%float.

(** The match of the specification: home 1.8 scored and 1.1 conceded, away
    1.2 scored and 1.3 conceded, league average 2.7, as the floats nearest
    to these decimals. *)
Definition sample_home_for : float := 0x1.ccccccccccccdp+0%float.
Definition sample_home_against : float := 0x1.199999999999ap+0%float.
Definition sample_away_for : float := 0x1.3333333333333p+0%float.
Definition sample_away_against : float := 0x1.4cccccccccccdp+0%float.
Definition sample_league_avg : float := 0x1.599999999999ap+1%float.

(** The two expectancies of that match, [0.8666666666666667] and
    [0.48888888888888893]. *)
Definition sample_home_expectancy : float := 0x1.bbbbbbbbbbbbcp-1%float.
Definition sample_away_expectancy : float := 0x1.f49f49f49f4a0p-2%float.

(** The values of the library functions at the arguments that this match
    needs, correctly rounded to binary64: [exp] at minus each expectancy,
    and the powers 0 to 8 of each expectancy. *)
Definition sample_exp (x : float) : float :=
  if PrimFloat.eqb x (- sample_home_expectancy)%float
  then 0x1.ae7054c94da22p-2%float
  else if PrimFloat.eqb x (- sample_away_expectancy)%float
  then 0x1.3a036fbf0cbb5p-1%float
  else nan.

Definition sample_pow (x : float) (k : nat) : float :=
  if PrimFloat.eqb x sample_home_expectancy
  then nth k [0x1p+0; 0x1.bbbbbbbbbbbbcp-1; 0x1.8091a2b3c4d5fp-1;
              0x1.4d4b0479aa975p-1; 0x1.20da9d7a82c76p-1;
              0x1.f4ae22078d59ap-2; 0x1.b1ec3fa0252b9p-2;
              0x1.781103f13147ep-2; 0x1.45ec9d043bc6ep-2]%float nan
  else if PrimFloat.eqb x sample_away_expectancy
  then nth k [0x1p+0; 0x1.f49f49f49f4a0p-2; 0x1.e97f4e0040ba3p-3;
              0x1.de9e9be97dddep-4; 0x1.d3fbcba5b9a5dp-5;
              0x1.c9957d2a93639p-6; 0x1.bf6a5840629a5p-7;
              0x1.b5790c55b5becp-8; 0x1.abc05053ce26ap-9]%float nan
  else nan.

Definition sample_libm : libm :=
  {| libm_exp := sample_exp; libm_pow := sample_pow |}.

End B64.

(** * Properties *)

(** ** Writing into lists and arrays *)

Lemma set_nth_length {A : Type} (n : nat) (v : A) (l : list A) :
  List.length (set_nth n v l) = List.length l.
Proof.
  revert n; induction l as [|h t IH]; intros [|n]; simpl; auto.
Qed.

Lemma nth_set_nth_same {A : Type} (n : nat) (v d : A) (l : list A) :
  (n < List.length l)%nat -> nth n (set_nth n v l) d = v.
Proof.
  revert n; induction l as [|h t IH]; intros [|n] Hn; simpl in *;
    try lia; auto.
  apply IH; lia.
Qed.

Lemma nth_set_nth_other {A : Type} (n k : nat) (v d : A) (l : list A) :
  k <> n -> nth k (set_nth n v l) d = nth k l d.
Proof.
  revert n k; induction l as [|h t IH]; intros [|n] [|k] Hk; simpl;
    auto; try congruence.
Qed.

Lemma set_nth_outside {A : Type} (n : nat) (v : A) (l : list A) :
  (List.length l <= n)%nat -> set_nth n v l = l.
Proof.
  revert n; induction l as [|h t IH]; intros [|n] Hn; simpl in *;
    auto; try lia.
  f_equal; apply IH; lia.
Qed.

Lemma zeros_shaped (r c : nat) : shaped r c (zeros r c).
Proof.
  unfold shaped, zeros; split.
  - apply repeat_length.
  - intros i Hi. rewrite nth_repeat_lt by assumption. apply repeat_length.
Qed.

Lemma setitem2_shaped (r c : nat) (m : matrix) (i j : nat) (v : R) :
  shaped r c m -> shaped r c (setitem2 m i j v).
Proof.
  intros [Hr Hc]; unfold setitem2; split.
  - now rewrite set_nth_length.
  - intros k Hk. destruct (Nat.eq_dec k i) as [->|Hne].
    + rewrite nth_set_nth_same by lia. rewrite set_nth_length. now apply Hc.
    + rewrite nth_set_nth_other by assumption. now apply Hc.
Qed.

Lemma getitem2_setitem2_same (r c : nat) (m : matrix) (i j : nat) (v : R) :
  shaped r c m -> (i < r)%nat -> (j < c)%nat ->
  getitem2 (setitem2 m i j v) i j = v.
Proof.
  intros [Hr Hc] Hi Hj; unfold getitem2, setitem2.
  rewrite nth_set_nth_same by lia.
  apply nth_set_nth_same. rewrite Hc; assumption.
Qed.

Lemma getitem2_setitem2_other (m : matrix) (i j i' j' : nat) (v : R) :
  i' <> i \/ j' <> j ->
  getitem2 (setitem2 m i j v) i' j' = getitem2 m i' j'.
Proof.
  intros Hne; unfold getitem2, setitem2.
  destruct (Nat.eq_dec i' i) as [->|Hi].
  - destruct Hne as [Hne|Hne]; [congruence|].
    destruct (Nat.lt_ge_cases i (List.length m)) as [Hlt|Hge].
    + rewrite nth_set_nth_same by assumption.
      now apply nth_set_nth_other.
    + now rewrite set_nth_outside by assumption.
  - now rewrite nth_set_nth_other by assumption.
Qed.

(** The inner loop, over the cells [js] of row [i]. *)
Lemma fill_row_spec (g : nat -> R) (r c i : nat) (js : list nat) :
  (i < r)%nat -> (forall j, In j js -> (j < c)%nat) ->
  forall m, shaped r c m ->
    let m' := fold_left (fun m j => setitem2 m i j (g j)) js m in
    shaped r c m' /\
    (forall j, In j js -> getitem2 m' i j = g j) /\
    (forall i' j', i' <> i \/ ~ In j' js ->
       getitem2 m' i' j' = getitem2 m i' j').
Proof.
  intros Hi; induction js as [|j0 js IH]; intros Hjs m Hm; simpl.
  - split; [assumption|split]; [intros j []|reflexivity].
  - assert (Hm1 : shaped r c (setitem2 m i j0 (g j0)))
      by now apply setitem2_shaped.
    destruct (IH (fun j H => Hjs j (or_intror H)) _ Hm1) as (Hs & Hin & Hout).
    split; [assumption|split].
    + intros j Hj. destruct (in_dec Nat.eq_dec j js) as [Hjin|Hjout].
      * now apply Hin.
      * destruct Hj as [<-|Hj]; [|contradiction].
        rewrite Hout by now right.
        apply (getitem2_setitem2_same r c); auto.
        apply Hjs; now left.
    + intros i' j' Hne. rewrite Hout by tauto.
      apply getitem2_setitem2_other.
      destruct Hne as [Hne|Hne]; [now left|right].
      intros ->; apply Hne; now left.
Qed.

(** The outer loop, over the rows [rows]. *)
Lemma fill_rows_spec (f : nat -> nat -> R) (r c : nat) (js rows : list nat) :
  (forall j, In j js -> (j < c)%nat) ->
  (forall i, In i rows -> (i < r)%nat) ->
  forall m, shaped r c m ->
    let m' := fold_left (fun m i =>
                fold_left (fun m j => setitem2 m i j (f i j)) js m) rows m in
    shaped r c m' /\
    (forall i j, In i rows -> In j js -> getitem2 m' i j = f i j) /\
    (forall i' j', ~ In i' rows -> getitem2 m' i' j' = getitem2 m i' j').
Proof.
  intros Hjs; induction rows as [|i0 rows IH]; intros Hrows m Hm; simpl.
  - split; [assumption|split]; [intros i j []|reflexivity].
  - destruct (fill_row_spec (f i0) r c i0 js (Hrows i0 (or_introl eq_refl))
                Hjs m Hm) as (Hs1 & Hin1 & Hout1).
    destruct (IH (fun i H => Hrows i (or_intror H)) _ Hs1)
      as (Hs & Hin & Hout).
    split; [assumption|split].
    + intros i j Hi Hj. destruct (in_dec Nat.eq_dec i rows) as [Hiin|Hiout].
      * now apply Hin.
      * destruct Hi as [<-|Hi]; [|contradiction].
        rewrite Hout by assumption. now apply Hin1.
    + intros i' j' Hne. rewrite Hout by tauto.
      apply Hout1. left. intros ->; apply Hne; now left.
Qed.

Lemma scoreline_matrix_spec (home_expectancy away_expectancy : R)
    (max_goals : nat) :
  let m := _generate_scoreline_probabilities home_expectancy away_expectancy
             max_goals in
  shaped (max_goals + 1) (max_goals + 1) m /\
  forall i j, (i <= max_goals)%nat -> (j <= max_goals)%nat ->
    getitem2 m i j =
    _poisson_pmf i home_expectancy * _poisson_pmf j away_expectancy.
Proof.
  unfold _generate_scoreline_probabilities, range.
  assert (Hin : forall k, In k (seq 0 (max_goals + 1)) ->
                  (k < max_goals + 1)%nat)
    by (intros k Hk; apply in_seq in Hk; lia).
  destruct (fill_rows_spec
              (fun i j => _poisson_pmf i home_expectancy *
                          _poisson_pmf j away_expectancy)
              (max_goals + 1) (max_goals + 1)
              (seq 0 (max_goals + 1)) (seq 0 (max_goals + 1)) Hin Hin
              _ (zeros_shaped (max_goals + 1) (max_goals + 1)))
    as (Hs & Hcell & _).
  split; [exact Hs|].
  intros i j Hi Hj. apply Hcell; apply in_seq; lia.
Qed.

(** ** Finite sums *)

Lemma Rsum_ext (l : list nat) (f g : nat -> R) :
  (forall i, In i l -> f i = g i) -> Rsum l f = Rsum l g.
Proof.
  induction l as [|a l IH]; intros H; simpl; [reflexivity|].
  rewrite (H a) by now left. rewrite IH; [reflexivity|].
  intros i Hi; apply H; now right.
Qed.

Lemma Rsum_zero (l : list nat) : Rsum l (fun _ => 0) = 0.
Proof. induction l as [|a l IH]; simpl; [|rewrite IH]; lra. Qed.


Lemma Rsum_head (a : nat) (l : list nat) (f : nat -> R) :
  Rsum (a :: l) f = f a + Rsum l f.
Proof. reflexivity. Qed.

(** A loop that adds [h i] to its accumulator at each [i]. *)
Lemma fold_left_adds (body : R -> nat -> R) (h : nat -> R) (l : list nat) :
  (forall acc i, body acc i = acc + h i) ->
  forall acc, fold_left body l acc = acc + Rsum l h.
Proof.
  intros Hbody; induction l as [|a l IH]; intros acc; simpl; [lra|].
  rewrite IH, Hbody; lra.
Qed.

Lemma under_prob_of_Rsum (m : matrix) (t : R) :
  under_prob_of m t =
  Rsum (range (List.length m)) (fun i =>
    Rsum (range (List.length (nth 0 m []))) (fun j => counted m t i j)).
Proof.
  unfold under_prob_of.
  rewrite (fold_left_adds _ (fun i =>
    Rsum (range (List.length (nth 0 m []))) (fun j => counted m t i j))).
  - lra.
  - intros acc i. apply fold_left_adds.
    intros acc' j; unfold counted.
    destruct (Rle_dec (INR (i + j)) t); lra.
Qed.

Lemma sum_cells_app (m : matrix) (a b : list (nat * nat)) :
  sum_cells m (a ++ b) = sum_cells m a + sum_cells m b.
Proof.
  unfold sum_cells; induction a as [|c a IH]; simpl; [|rewrite IH]; lra.
Qed.

Lemma under_prob_of_cells (m : matrix) (t : R) :
  under_prob_of m t = sum_cells m (cells_at_most m t).
Proof.
  rewrite under_prob_of_Rsum. unfold cells_at_most.
  generalize (range (List.length (nth 0 m []))) as js.
  generalize (range (List.length m)) as rows.
  intros rows js; induction rows as [|i rows IH]; simpl; [reflexivity|].
  rewrite filter_app, sum_cells_app, IH. f_equal.
  clear IH; induction js as [|j js IH]; simpl; [reflexivity|].
  rewrite IH; unfold counted, sum_cells.
  destruct (Rle_dec (INR (i + j)) t); simpl; lra.
Qed.

(** ** Guards and divisions that succeed *)

Lemma truthy_nonzero (x : R) : x <> 0 -> truthy (Some x) = true.
Proof. intros H; simpl. destruct (Req_dec_T x 0); [contradiction|reflexivity]. Qed.

Lemma float_truediv_nonzero (a b : R) :
  b <> 0 -> float_truediv a b = Return (a / b).
Proof.
  intros H; unfold float_truediv.
  destruct (Req_dec_T b 0); [contradiction|reflexivity].
Qed.

Lemma int_truediv_nonzero (a b : Z) :
  b <> 0%Z -> int_truediv a b = Return (IZR a / IZR b).
Proof.
  intros H; unfold int_truediv.
  destruct (Z.eqb_spec b 0); [contradiction|reflexivity].
Qed.

Lemma div_nonzero (a b : R) : a <> 0 -> b <> 0 -> a / b <> 0.
Proof.
  intros Ha Hb; unfold Rdiv.
  apply Rmult_integral_contrapositive_currified; [assumption|].
  now apply Rinv_neq_0_compat.
Qed.

Ltac run_method :=
  unfold bind, eval, assign, ret, raise; simpl.

Lemma calculate_strengths_simple (self : PoissonCalculator)
    (hf ha af aa l : R) :
  using_detailed_averages self = false ->
  home_avg_goals_for self = Some hf ->
  home_avg_goals_against self = Some ha ->
  away_avg_goals_for self = Some af ->
  away_avg_goals_against self = Some aa ->
  league_avg_goals self = Some l ->
  hf <> 0 -> ha <> 0 -> af <> 0 -> aa <> 0 -> l <> 0 ->
  calculate_strengths self =
  (Return tt, with_strengths (hf / l) (ha / l) (af / l) (aa / l) self).
Proof.
  intros Hd Hhf Hha Haf Haa Hl Nhf Nha Naf Naa Nl.
  unfold calculate_strengths, all; run_method.
  rewrite Hd, Hhf, Hha, Haf, Haa, Hl; simpl forallb.
  rewrite !truthy_nonzero by assumption; simpl.
  rewrite Hhf, Hha, Haf, Haa, Hl; cbn [truediv].
  rewrite !float_truediv_nonzero by assumption.
  reflexivity.
Qed.

Lemma calculate_strengths_detailed (self : PoissonCalculator)
    (hf ha af aa lhf lha laf laa : R) :
  using_detailed_averages self = true ->
  home_avg_goals_for self = Some hf ->
  home_avg_goals_against self = Some ha ->
  away_avg_goals_for self = Some af ->
  away_avg_goals_against self = Some aa ->
  league_home_goals_for self = Some lhf ->
  league_home_goals_against self = Some lha ->
  league_away_goals_for self = Some laf ->
  league_away_goals_against self = Some laa ->
  hf <> 0 -> ha <> 0 -> af <> 0 -> aa <> 0 ->
  lhf <> 0 -> lha <> 0 -> laf <> 0 -> laa <> 0 ->
  calculate_strengths self =
  (Return tt, with_strengths (hf / lhf) (ha / laf) (af / laf) (aa / lhf) self).
Proof.
  intros Hd Hhf Hha Haf Haa Hlhf Hlha Hlaf Hlaa Nhf Nha Naf Naa N1 N2 N3 N4.
  unfold calculate_strengths, all; run_method.
  rewrite Hd, Hhf, Hha, Haf, Haa, Hlhf, Hlha, Hlaf, Hlaa; simpl forallb.
  rewrite !truthy_nonzero by assumption; simpl.
  rewrite Hhf, Hha, Haf, Haa, Hlhf, Hlaf; cbn [truediv].
  rewrite !float_truediv_nonzero by assumption.
  reflexivity.
Qed.

Lemma goal_expectancy_simple (self : PoissonCalculator)
    (home_attack home_defense away_attack away_defense l : R) :
  using_detailed_averages self = false ->
  home_attack_strength self = Some home_attack ->
  home_defense_strength self = Some home_defense ->
  away_attack_strength self = Some away_attack ->
  away_defense_strength self = Some away_defense ->
  league_avg_goals self = Some l ->
  home_attack <> 0 -> home_defense <> 0 ->
  away_attack <> 0 -> away_defense <> 0 ->
  _calculate_goal_expectancy self =
  (Return (home_attack * away_defense * l, away_attack * home_defense * l),
   self).
Proof.
  intros Hd H1 H2 H3 H4 Hl N1 N2 N3 N4.
  unfold _calculate_goal_expectancy, all, mul3; run_method.
  rewrite H1, H2, H3, H4, !truthy_nonzero by assumption; simpl.
  rewrite Hd, H1, H2, H3, H4, Hl. reflexivity.
Qed.

Lemma goal_expectancy_detailed (self : PoissonCalculator)
    (home_attack home_defense away_attack away_defense lhf laf : R) :
  using_detailed_averages self = true ->
  home_attack_strength self = Some home_attack ->
  home_defense_strength self = Some home_defense ->
  away_attack_strength self = Some away_attack ->
  away_defense_strength self = Some away_defense ->
  league_home_goals_for self = Some lhf ->
  league_away_goals_for self = Some laf ->
  home_attack <> 0 -> home_defense <> 0 ->
  away_attack <> 0 -> away_defense <> 0 ->
  _calculate_goal_expectancy self =
  (Return (home_attack * away_defense * lhf, away_attack * home_defense * laf),
   self).
Proof.
  intros Hd H1 H2 H3 H4 Hlh Hla N1 N2 N3 N4.
  unfold _calculate_goal_expectancy, all, mul3; run_method.
  rewrite H1, H2, H3, H4, !truthy_nonzero by assumption; simpl.
  rewrite Hd, H1, H2, H3, H4, Hlh, Hla. reflexivity.
Qed.

(** ** The markets as values *)

Lemma odds_of_returns (prob : R) : odds_of prob = Return (odds_value prob).
Proof.
  unfold odds_of, odds_value. destruct (Rlt_dec 0 prob) as [Hp|Hp]; [|reflexivity].
  rewrite float_truediv_nonzero by lra. reflexivity.
Qed.

Lemma odds_value_cases (p : R) :
  (0 < p -> 1 / p < overflow_bound -> odds_value p = Finite (1 / p)) /\
  (0 < p -> overflow_bound <= 1 / p -> odds_value p = PosInf) /\
  (p <= 0 -> odds_value p = PosInf).
Proof.
  assert (Hb : 0 < overflow_bound)
    by (unfold overflow_bound; apply IZR_lt; reflexivity).
  unfold odds_value, round_overflow.
  repeat split; intros Hp; try intros Hq;
    destruct (Rlt_dec 0 p); try (exfalso; lra); try reflexivity;
    destruct (Rle_dec overflow_bound (1 / p)); try (exfalso; lra);
    try reflexivity.
  destruct (Rle_dec (1 / p) (- overflow_bound)) as [Hn|_]; [|reflexivity].
  exfalso. assert (0 < 1 / p) by (apply Rdiv_lt_0_compat; lra). lra.
Qed.

Lemma odds_value_cases_pair (p q : R) :
  (0 < p -> 1 / p < overflow_bound -> odds_value p = Finite (1 / p)) /\
  (0 < p -> overflow_bound <= 1 / p -> odds_value p = PosInf) /\
  (p <= 0 -> odds_value p = PosInf) /\
  (0 < q -> 1 / q < overflow_bound -> odds_value q = Finite (1 / q)) /\
  (0 < q -> overflow_bound <= 1 / q -> odds_value q = PosInf) /\
  (q <= 0 -> odds_value q = PosInf).
Proof.
  destruct (odds_value_cases p) as (A & B & C).
  destruct (odds_value_cases q) as (D & E & F). tauto.
Qed.

Lemma overflow_bound_large : 100000000 < overflow_bound.
Proof. unfold overflow_bound. apply IZR_lt. reflexivity. Qed.

Lemma round_overflow_finite (x : R) :
  0 <= x <= 100000000 -> round_overflow x = Finite x.
Proof.
  intros Hx. pose proof overflow_bound_large as Hb. unfold round_overflow.
  destruct (Rle_dec overflow_bound x); [exfalso; lra|].
  destruct (Rle_dec x (- overflow_bound)); [exfalso; lra|]. reflexivity.
Qed.

Lemma over_under_results (prob_matrix : matrix) :
  _calculate_over_under_probabilities prob_matrix =
  Return (map (fun t => (t, market_at prob_matrix t)) thresholds).
Proof.
  unfold _calculate_over_under_probabilities, thresholds.
  cbn [over_under_loop]. rewrite !odds_of_returns. cbn [obind dict_set].
  repeat (match goal with
          | |- context [Req_dec_T ?a ?b] =>
              destruct (Req_dec_T a b) as [E|_]; [exfalso; lra|]
          end; cbn [dict_set]).
  reflexivity.
Qed.

Lemma generate_market_analysis_ready (margin_percent : R)
    (self : PoissonCalculator) (home_expectancy away_expectancy : R) :
  truthy (home_attack_strength self) = true ->
  truthy (away_attack_strength self) = true ->
  _calculate_goal_expectancy self =
    (Return (home_expectancy, away_expectancy), self) ->
  generate_market_analysis margin_percent self =
  (Return (market_table margin_percent home_expectancy away_expectancy), self).
Proof.
  intros H1 H2 He. unfold generate_market_analysis, all; run_method.
  rewrite H1, H2; simpl. rewrite He.
  rewrite over_under_results. reflexivity.
Qed.

(** ** Callers: configure, compute the strengths, analyse *)

Lemma configure_valid (d : input_data) (self : PoissonCalculator) :
  valid d ->
  fst (configure d self) = Return tt /\ holds d (snd (configure d self)).
Proof.
  destruct d; simpl; intros Hv; unfold holds; simpl.
  - repeat split.
  - repeat split.
  - unfold set_team_from_totals; run_method.
    rewrite !int_truediv_nonzero by lia; simpl. repeat split.
  - unfold set_team_from_totals_detailed; run_method.
    rewrite !int_truediv_nonzero by lia; simpl. repeat split.
Qed.

Lemma ratio_pos (a b : Z) : (0 < a)%Z -> (0 < b)%Z -> 0 < IZR a / IZR b.
Proof.
  intros Ha Hb. apply Rdiv_lt_0_compat; now apply IZR_lt.
Qed.

Lemma valid_positive (d : input_data) :
  valid d ->
  0 < home_for d /\ 0 < home_against d /\ 0 < away_for d /\
  0 < away_against d /\ 0 < league_home d /\ 0 < league_away d.
Proof.
  destruct d; simpl; intros Hv; repeat split;
    try tauto; apply ratio_pos; tauto.
Qed.

Lemma valid_swap_sides (d : input_data) : valid d -> valid (swap_sides d).
Proof. destruct d; simpl; tauto. Qed.

Lemma pos_nonzero (x : R) : 0 < x -> x <> 0.
Proof. intros H; lra. Qed.

Lemma prepared_spec (d : input_data) (self : PoissonCalculator) :
  valid d ->
  (configure d ;;; calculate_strengths) self =
  (Return tt,
   with_strengths (home_for d / league_home d) (home_against d / league_away d)
     (away_for d / league_away d) (away_against d / league_home d)
     (snd (configure d self))).
Proof.
  intros Hv.
  destruct (configure_valid d self Hv) as (Hret & H1 & H2 & H3 & H4 & Hd & Hl).
  destruct (valid_positive d Hv) as (P1 & P2 & P3 & P4 & P5 & P6).
  unfold bind. destruct (configure d self) as [o s]; simpl in *; subst o.
  destruct (detailed d) eqn:Ed.
  - destruct Hl as (L1 & L2 & L3 & L4).
    apply calculate_strengths_detailed
      with (lha := league_away d) (laa := league_home d);
      auto using pos_nonzero.
  - assert (Heq : league_away d = league_home d)
      by (destruct d; simpl in *; congruence).
    rewrite Heq.
    apply calculate_strengths_simple; auto using pos_nonzero.
Qed.

Lemma prepared_expectancy (d : input_data) (self : PoissonCalculator) :
  valid d ->
  _calculate_goal_expectancy (prepared d self) =
  (Return (home_expected d, away_expected d), prepared d self).
Proof.
  intros Hv. unfold prepared. rewrite prepared_spec by assumption.
  destruct (configure_valid d self Hv) as (_ & _ & _ & _ & _ & Hd & Hl).
  destruct (valid_positive d Hv) as (P1 & P2 & P3 & P4 & P5 & P6).
  cbn [snd]. unfold home_expected, away_expected.
  destruct (detailed d) eqn:Ed.
  - destruct Hl as (L1 & L2 & _).
    apply goal_expectancy_detailed; auto;
      apply div_nonzero; auto using pos_nonzero.
  - assert (Heq : league_away d = league_home d)
      by (destruct d; simpl in *; congruence).
    rewrite Heq.
    apply goal_expectancy_simple; auto;
      apply div_nonzero; auto using pos_nonzero.
Qed.

Lemma prepared_market_analysis (margin_percent : R) (d : input_data)
    (self : PoissonCalculator) :
  valid d ->
  generate_market_analysis margin_percent (prepared d self) =
  (Return (market_table margin_percent (home_expected d) (away_expected d)),
   prepared d self).
Proof.
  intros Hv. apply generate_market_analysis_ready.
  - unfold prepared. rewrite prepared_spec by assumption. cbn.
    destruct (valid_positive d Hv) as (P1 & _ & _ & _ & P5 & _).
    apply truthy_nonzero, div_nonzero; auto using pos_nonzero.
  - unfold prepared. rewrite prepared_spec by assumption. cbn.
    destruct (valid_positive d Hv) as (_ & _ & P3 & _ & _ & P6).
    apply truthy_nonzero, div_nonzero; auto using pos_nonzero.
  - now apply prepared_expectancy.
Qed.

(** ** The under-probability of a generated matrix *)

Lemma under_prob_of_generated (h a : R) (n : nat) (t : R) :
  under_prob_of (_generate_scoreline_probabilities h a n) t =
  Rsum (range (n + 1)) (fun i =>
    Rsum (range (n + 1)) (fun j =>
      if Rle_dec (INR (i + j)) t
      then _poisson_pmf i h * _poisson_pmf j a else 0)).
Proof.
  destruct (scoreline_matrix_spec h a n) as ((Hrows & Hcols) & Hcell).
  rewrite under_prob_of_Rsum, Hrows, (Hcols 0%nat) by lia.
  apply Rsum_ext; intros i Hi. apply Rsum_ext; intros j Hj.
  apply in_seq in Hi, Hj. unfold counted.
  rewrite Hcell by lia. reflexivity.
Qed.



(** Below the threshold 0.5 there is the scoreline 0-0 only. *)
Lemma under_prob_of_half (h a : R) (n : nat) :
  under_prob_of (_generate_scoreline_probabilities h a n) 0.5 =
  _poisson_pmf 0 h * _poisson_pmf 0 a.
Proof.
  assert (Hbig : forall k, (1 <= k)%nat -> ~ INR k <= 0.5).
  { intros k Hk Hle. apply le_INR in Hk. simpl in Hk. lra. }
  assert (Hzero : forall i l, (forall j, In j l -> (1 <= i + j)%nat) ->
            Rsum l (fun j => if Rle_dec (INR (i + j)) 0.5
                             then _poisson_pmf i h * _poisson_pmf j a
                             else 0) = 0).
  { intros i l Hl. transitivity (Rsum l (fun _ => 0)); [|apply Rsum_zero].
    apply Rsum_ext; intros j Hj.
    destruct (Rle_dec (INR (i + j)) 0.5) as [Hle|_]; [|reflexivity].
    exfalso; exact (Hbig _ (Hl j Hj) Hle). }
  rewrite under_prob_of_generated. unfold range.
  rewrite Nat.add_1_r. change (seq 0 (S n)) with (0%nat :: seq 1 n).
  assert (Hrest :
    Rsum (seq 1 n) (fun i =>
      Rsum (0%nat :: seq 1 n) (fun j =>
        if Rle_dec (INR (i + j)) 0.5
        then _poisson_pmf i h * _poisson_pmf j a else 0)) = 0).
  { transitivity (Rsum (seq 1 n) (fun _ => 0)); [|apply Rsum_zero].
    apply Rsum_ext; intros i Hi. apply in_seq in Hi.
    apply Hzero. intros j _. lia. }
  rewrite Rsum_head, Hrest. cbv beta. rewrite Rsum_head.
  rewrite (Hzero 0%nat) by (intros j Hj; apply in_seq in Hj; lia).
  destruct (Rle_dec (INR (0 + 0)) 0.5) as [_|Hn]; [lra|].
  exfalso; apply Hn; simpl; lra.
Qed.

Lemma get_summary_info_ready (self : PoissonCalculator)
    (home_expectancy away_expectancy : R) :
  truthy (home_attack_strength self) = true ->
  truthy (away_attack_strength self) = true ->
  _calculate_goal_expectancy self =
    (Return (home_expectancy, away_expectancy), self) ->
  get_summary_info self =
  (Return {| Home_Team_Expected_Goals := home_expectancy;
             Away_Team_Expected_Goals := away_expectancy;
             Total_Expected_Goals := home_expectancy + away_expectancy;
             Home_Attack_Strength := home_attack_strength self;
             Home_Defense_Strength := home_defense_strength self;
             Away_Attack_Strength := away_attack_strength self;
             Away_Defense_Strength := away_defense_strength self |}, self).
Proof.
  intros H1 H2 He. unfold get_summary_info, all; run_method.
  rewrite H1, H2; simpl. rewrite He. reflexivity.
Qed.

(** * The claims *)



(** C2.  The cell [i][j] of the scoreline matrix, for [i] and [j] from 0 to
    [max_goals], is the Poisson probability of [i] goals at the home
    expectancy times that of [j] goals at the away expectancy, the
    probability of [k] at [lam] being [lam^k * e^(-lam) / k!]; [max_goals]
    is 8 unless given. *)
Theorem scoreline_cell_is_product (home_expectancy away_expectancy : R)
    (max_goals i j : nat) :
  (i <= max_goals)%nat -> (j <= max_goals)%nat ->
  default_max_goals = 8%nat /\
  getitem2
    (_generate_scoreline_probabilities home_expectancy away_expectancy
       max_goals) i j =
  (home_expectancy ^ i * exp (- home_expectancy) / INR (fact i)) *
  (away_expectancy ^ j * exp (- away_expectancy) / INR (fact j)).
Proof.
  intros Hi Hj. split; [reflexivity|].
  destruct (scoreline_matrix_spec home_expectancy away_expectancy max_goals)
    as (_ & Hcell).
  now apply Hcell.
Qed.

Lemma scoreline_cell_is_product_witness :
  default_max_goals = 8%nat /\
  getitem2 (_generate_scoreline_probabilities 1.5 1.2 default_max_goals) 2 1 =
  (1.5 ^ 2 * exp (- (1.5)) / INR (fact 2)) *
  (1.2 ^ 1 * exp (- (1.2)) / INR (fact 1)).
Proof.
  apply (scoreline_cell_is_product 1.5 1.2 default_max_goals 2 1);
    unfold default_max_goals; lia.
Defined.

(** C3.  In detailed mode, with the four team averages and the two league
    scoring averages positive, [calculate_strengths] returns and leaves
    home attack = home goals for / league home scoring,
    home defense = home goals against / league away scoring,
    away attack = away goals for / league away scoring and
    away defense = away goals against / league home scoring. *)
Theorem detailed_strengths (self : PoissonCalculator)
    (hf ha af aa league_home_for league_away_for : R) :
  using_detailed_averages self = true ->
  home_avg_goals_for self = Some hf ->
  home_avg_goals_against self = Some ha ->
  away_avg_goals_for self = Some af ->
  away_avg_goals_against self = Some aa ->
  league_home_goals_for self = Some league_home_for ->
  league_away_goals_for self = Some league_away_for ->
  league_home_goals_against self = Some league_away_for ->
  league_away_goals_against self = Some league_home_for ->
  0 < hf -> 0 < ha -> 0 < af -> 0 < aa ->
  0 < league_home_for -> 0 < league_away_for ->
  exists self',
    calculate_strengths self = (Return tt, self') /\
    home_attack_strength self' = Some (hf / league_home_for) /\
    home_defense_strength self' = Some (ha / league_away_for) /\
    away_attack_strength self' = Some (af / league_away_for) /\
    away_defense_strength self' = Some (aa / league_home_for).
Proof.
  intros Hd H1 H2 H3 H4 L1 L2 L3 L4 P1 P2 P3 P4 P5 P6.
  eexists; split.
  - apply (calculate_strengths_detailed self hf ha af aa
             league_home_for league_away_for league_away_for league_home_for);
      auto using pos_nonzero.
  - repeat split.
Qed.

Lemma detailed_strengths_witness :
  exists self',
    calculate_strengths
      (snd (set_team_averages_detailed 1.8 1.1 1.2 1.3 1.5 1.2 init)) =
      (Return tt, self') /\
    home_attack_strength self' = Some (1.8 / 1.5) /\
    home_defense_strength self' = Some (1.1 / 1.2) /\
    away_attack_strength self' = Some (1.2 / 1.2) /\
    away_defense_strength self' = Some (1.3 / 1.5).
Proof.
  apply (detailed_strengths
           (snd (set_team_averages_detailed 1.8 1.1 1.2 1.3 1.5 1.2 init))
           1.8 1.1 1.2 1.3 1.5 1.2);
    try reflexivity; lra.
Defined.

Ltac decide_zero :=
  repeat match goal with
         | |- context [Req_dec_T ?a ?b] =>
             destruct (Req_dec_T a b);
             [try (exfalso; lra)|try (exfalso; lra)]; simpl
         end.

(** C4.  What the code does when a team average is 0: with home goals
    against 0 and every other input positive, [calculate_strengths] raises
    ValueError and writes no strength; and on an instance whose four
    strengths are written, one of them 0, [_calculate_goal_expectancy]
    raises ValueError. *)
Theorem zero_average_is_rejected :
  let configured := snd (set_team_averages 1.8 0 1.2 1.3 2.7 init) in
  fst (set_team_averages 1.8 0 1.2 1.3 2.7 init) = Return tt /\
  home_avg_goals_against configured = Some 0 /\
  calculate_strengths configured =
    (Raise (ValueError "Team averages must be set before calculating strengths"),
     configured) /\
  home_defense_strength configured = None /\
  let computed :=
    with_strengths (1.8 / 2.7) (0 / 2.7) (1.2 / 2.7) (1.3 / 2.7) configured in
  _calculate_goal_expectancy computed =
    (Raise (ValueError "Strengths must be calculated before goal expectancy"),
     computed).
Proof.
  cbv zeta. split; [reflexivity|]. split; [reflexivity|].
  split; [|split; [reflexivity|]].
  - unfold calculate_strengths, all; run_method. decide_zero. reflexivity.
  - unfold _calculate_goal_expectancy, all; run_method. decide_zero.
    reflexivity.
Qed.

Lemma expected_swap_sides (d : input_data) :
  home_expected (swap_sides d) = away_expected d /\
  away_expected (swap_sides d) = home_expected d.
Proof. destruct d; split; reflexivity. Qed.


Lemma prepared_summary_info (d : input_data) (self : PoissonCalculator) :
  valid d ->
  exists info,
    get_summary_info (prepared d self) = (Return info, prepared d self) /\
    Home_Team_Expected_Goals info = home_expected d /\
    Away_Team_Expected_Goals info = away_expected d /\
    Total_Expected_Goals info = home_expected d + away_expected d.
Proof.
  intros Hv. eexists; split.
  - apply get_summary_info_ready.
    + unfold prepared. rewrite prepared_spec by assumption. cbn.
      destruct (valid_positive d Hv) as (P1 & _ & _ & _ & P5 & _).
      apply truthy_nonzero, div_nonzero; auto using pos_nonzero.
    + unfold prepared. rewrite prepared_spec by assumption. cbn.
      destruct (valid_positive d Hv) as (_ & _ & P3 & _ & _ & P6).
      apply truthy_nonzero, div_nonzero; auto using pos_nonzero.
    + now apply prepared_expectancy.
  - repeat split.
Qed.

Lemma scoreline_matrix_transposed (h a : R) (n i j : nat) :
  (i <= n)%nat -> (j <= n)%nat ->
  getitem2 (_generate_scoreline_probabilities a h n) i j =
  getitem2 (_generate_scoreline_probabilities h a n) j i.
Proof.
  intros Hi Hj.
  destruct (scoreline_matrix_spec h a n) as (_ & H1).
  destruct (scoreline_matrix_spec a h n) as (_ & H2).
  rewrite H1, H2 by assumption. apply Rmult_comm.
Qed.

Lemma cells_at_most_generated (h a : R) (n : nat) (t : R) (i j : nat) :
  In (i, j) (cells_at_most (_generate_scoreline_probabilities h a n) t) <->
  (i <= n)%nat /\ (j <= n)%nat /\ INR (i + j) <= t.
Proof.
  destruct (scoreline_matrix_spec h a n) as ((Hrows & Hcols) & _).
  unfold cells_at_most. rewrite Hrows, (Hcols 0%nat) by lia.
  rewrite filter_In, in_prod_iff. unfold range. rewrite !in_seq.
  cbn [fst snd]. destruct (Rle_dec (INR (i + j)) t); split; intros H.
  - repeat split; try lia; assumption.
  - repeat split; try lia.
  - destruct H as (_ & H); discriminate.
  - exfalso; tauto.
Qed.

(** C5, as stated, fails: in binary64, for the match of the specification
    (home 1.8 and 1.1, away 1.2 and 1.3, league average 2.7), exchanging
    the sides exchanges the two expectancies, and the under-probability of
    the threshold 3.5, 0.9511594231023799 before, is 0.95115942310238
    after; the over-probability changes with it. *)
Lemma swap_changes_probability_in_binary64 :
  let before :=
    B64.goal_expectancy B64.sample_home_for B64.sample_home_against
      B64.sample_away_for B64.sample_away_against B64.sample_league_avg in
  let after :=
    B64.goal_expectancy B64.sample_away_for B64.sample_away_against
      B64.sample_home_for B64.sample_home_against B64.sample_league_avg in
  let prob_matrix :=
    B64._generate_scoreline_probabilities B64.sample_libm
      (fst before) (snd before) default_max_goals in
  let prob_matrix' :=
    B64._generate_scoreline_probabilities B64.sample_libm
      (fst after) (snd after) default_max_goals in
  before = (B64.sample_home_expectancy, B64.sample_away_expectancy) /\
  after = (B64.sample_away_expectancy, B64.sample_home_expectancy) /\
  B64.under_prob_of prob_matrix 3.5 = 0x1.e6fe5e2f038ecp-1%float /\
  B64.under_prob_of prob_matrix' 3.5 = 0x1.e6fe5e2f038edp-1%float /\
  PrimFloat.eqb (B64.under_prob_of prob_matrix 3.5)
    (B64.under_prob_of prob_matrix' 3.5) = false /\
  PrimFloat.eqb (B64.over_prob_of prob_matrix 3.5)
    (B64.over_prob_of prob_matrix' 3.5) = false.
Proof. vm_compute. repeat split; reflexivity. Qed.

(** C5, amended.  Exchanging the home and the away side of a valid input
    (the averages or totals of the two teams and, in detailed mode, the
    league's home-scoring and away-scoring averages) exchanges the home and
    the away expectancy exactly, leaves the total of expected goals as it
    was, and transposes the scoreline matrix: the cell [i][j] after the
    exchange is the cell [j][i] before.  The under-probability of each
    threshold is then the sum of the same cells, those with a total of
    goals of at most the threshold, met in another order, and the
    over-probability is 1 minus it. *)
Theorem swap_sides_transposes (margin_percent : R) (d : input_data)
    (self : PoissonCalculator) :
  valid d ->
  exists home_expectancy away_expectancy info info' rows rows',
    _calculate_goal_expectancy (prepared d self) =
      (Return (home_expectancy, away_expectancy), prepared d self) /\
    _calculate_goal_expectancy (prepared (swap_sides d) self) =
      (Return (away_expectancy, home_expectancy),
       prepared (swap_sides d) self) /\
    get_summary_info (prepared d self) = (Return info, prepared d self) /\
    get_summary_info (prepared (swap_sides d) self) =
      (Return info', prepared (swap_sides d) self) /\
    Total_Expected_Goals info' = Total_Expected_Goals info /\
    let prob_matrix :=
      _generate_scoreline_probabilities home_expectancy away_expectancy
        default_max_goals in
    let prob_matrix' :=
      _generate_scoreline_probabilities away_expectancy home_expectancy
        default_max_goals in
    (forall i j, (i <= default_max_goals)%nat -> (j <= default_max_goals)%nat ->
       getitem2 prob_matrix' i j = getitem2 prob_matrix j i) /\
    (forall t i j,
       In (i, j) (cells_at_most prob_matrix' t) <->
       In (j, i) (cells_at_most prob_matrix t)) /\
    generate_market_analysis margin_percent (prepared d self) =
      (Return rows, prepared d self) /\
    generate_market_analysis margin_percent (prepared (swap_sides d) self) =
      (Return rows', prepared (swap_sides d) self) /\
    map Market rows = thresholds /\
    map Market rows' = thresholds /\
    (forall r, In r rows ->
       Probability r =
         sum_cells prob_matrix (cells_at_most prob_matrix (Market r)) /\
       Opposite_Probability r = 1 - Probability r) /\
    (forall r, In r rows' ->
       Probability r =
         sum_cells prob_matrix' (cells_at_most prob_matrix' (Market r)) /\
       Opposite_Probability r = 1 - Probability r).
Proof.
  intros Hv. pose proof (valid_swap_sides d Hv) as Hv'.
  destruct (expected_swap_sides d) as (Eh & Ea).
  destruct (prepared_summary_info d self Hv) as (info & Hi & _ & _ & Ht).
  destruct (prepared_summary_info (swap_sides d) self Hv')
    as (info' & Hi' & _ & _ & Ht').
  assert (Hrows : forall h a r,
    In r (market_table margin_percent h a) ->
    Probability r =
      sum_cells (_generate_scoreline_probabilities h a default_max_goals)
        (cells_at_most
           (_generate_scoreline_probabilities h a default_max_goals)
           (Market r)) /\
    Opposite_Probability r = 1 - Probability r).
  { intros h a r Hr. unfold market_table in Hr.
    apply in_map_iff in Hr. destruct Hr as ([t data] & <- & Hin).
    apply in_map_iff in Hin. destruct Hin as (t' & Heq & _).
    inversion Heq; subst; clear Heq.
    cbn [market_row Market Probability Opposite_Probability market_at
         under_probability over_probability].
    split; [apply under_prob_of_cells|reflexivity]. }
  exists (home_expected d), (away_expected d), info, info',
    (market_table margin_percent (home_expected d) (away_expected d)),
    (market_table margin_percent (away_expected d) (home_expected d)).
  split; [now apply prepared_expectancy|].
  split; [rewrite <- Eh at 1; rewrite <- Ea at 1;
          now apply prepared_expectancy|].
  split; [exact Hi|]. split; [exact Hi'|].
  split; [rewrite Ht, Ht', Eh, Ea; apply Rplus_comm|].
  cbv zeta.
  split; [intros i j Hi0 Hj0; now apply scoreline_matrix_transposed|].
  split.
  { intros t i j. rewrite !cells_at_most_generated.
    rewrite (Nat.add_comm j i). tauto. }
  split; [now apply prepared_market_analysis|].
  split; [rewrite <- Eh at 1; rewrite <- Ea at 1;
          now apply prepared_market_analysis|].
  split; [reflexivity|]. split; [reflexivity|].
  split; intros r Hr; now apply Hrows.
Qed.

Lemma swap_sides_transposes_witness :
  exists home_expectancy away_expectancy,
    _calculate_goal_expectancy (prepared sample_match init) =
      (Return (home_expectancy, away_expectancy), prepared sample_match init) /\
    _calculate_goal_expectancy (prepared (swap_sides sample_match) init) =
      (Return (away_expectancy, home_expectancy),
       prepared (swap_sides sample_match) init) /\
    forall i j, (i <= default_max_goals)%nat -> (j <= default_max_goals)%nat ->
      getitem2 (_generate_scoreline_probabilities away_expectancy
                  home_expectancy default_max_goals) i j =
      getitem2 (_generate_scoreline_probabilities home_expectancy
                  away_expectancy default_max_goals) j i.
Proof.
  destruct (swap_sides_transposes default_margin_percent sample_match init)
    as (h & a & _ & _ & _ & _ & H1 & H2 & _ & _ & _ & H3 & _).
  - unfold sample_match; simpl; lra.
  - exists h, a. split; [exact H1|]. split; [exact H2|exact H3].
Defined.



Lemma bind_congr {A B : Type} (c1 c2 : method A) (k : A -> method B)
    (self : PoissonCalculator) :
  c1 self = c2 self -> bind c1 k self = bind c2 k self.
Proof. unfold bind; intros ->; reflexivity. Qed.

Lemma set_team_from_totals_averages (self : PoissonCalculator)
    (hg hs hc ag gs gc : Z) (l : R) :
  hg <> 0%Z -> ag <> 0%Z ->
  set_team_from_totals hg hs hc ag gs gc l self =
  set_team_averages (IZR hs / IZR hg) (IZR hc / IZR hg)
    (IZR gs / IZR ag) (IZR gc / IZR ag) l self.
Proof.
  intros Hh Ha. unfold set_team_from_totals, set_team_averages; run_method.
  rewrite !int_truediv_nonzero by assumption. reflexivity.
Qed.

(** C7.  With positive numbers of games, configuring from totals leaves the
    instance as configuring from the averages goals scored / games and
    goals conceded / games does, so that everything computed afterwards is
    the same; the totals 20 games, 38 scored, 19 conceded are the averages
    1.90 and 0.95. *)
Theorem totals_equal_averages (self : PoissonCalculator)
    (home_games home_goals_scored home_goals_conceded
     away_games away_goals_scored away_goals_conceded : Z) (league_avg : R) :
  (0 < home_games)%Z -> (0 < away_games)%Z ->
  set_team_from_totals home_games home_goals_scored home_goals_conceded
    away_games away_goals_scored away_goals_conceded league_avg self =
  set_team_averages
    (IZR home_goals_scored / IZR home_games)
    (IZR home_goals_conceded / IZR home_games)
    (IZR away_goals_scored / IZR away_games)
    (IZR away_goals_conceded / IZR away_games) league_avg self /\
  calculate_probabilities
    (totals home_games home_goals_scored home_goals_conceded
       away_games away_goals_scored away_goals_conceded league_avg) self =
  calculate_probabilities
    (averages
       (IZR home_goals_scored / IZR home_games)
       (IZR home_goals_conceded / IZR home_games)
       (IZR away_goals_scored / IZR away_games)
       (IZR away_goals_conceded / IZR away_games) league_avg) self /\
  calculate_probabilities
    (totals 20 38 19 away_games away_goals_scored away_goals_conceded
       league_avg) self =
  calculate_probabilities
    (averages 1.90 0.95
       (IZR away_goals_scored / IZR away_games)
       (IZR away_goals_conceded / IZR away_games) league_avg) self /\
  calculate_probabilities
    (totals home_games home_goals_scored home_goals_conceded 20 38 19
       league_avg) self =
  calculate_probabilities
    (averages
       (IZR home_goals_scored / IZR home_games)
       (IZR home_goals_conceded / IZR home_games) 1.90 0.95 league_avg) self.
Proof.
  intros Hh Ha.
  assert (E1 : 1.90 = IZR 38 / IZR 20) by lra.
  assert (E2 : 0.95 = IZR 19 / IZR 20) by lra.
  split; [apply set_team_from_totals_averages; lia|].
  split; [|split]; unfold calculate_probabilities; cbn [configure];
    apply bind_congr; rewrite ?E1, ?E2;
    apply set_team_from_totals_averages; lia.
Qed.

Lemma totals_equal_averages_witness :
  calculate_probabilities (totals 20 38 19 20 38 19 2.7) init =
  calculate_probabilities (averages 1.90 0.95 1.90 0.95 2.7) init.
Proof.
  destruct (totals_equal_averages init 20 38 19 20 38 19 2.7)
    as (_ & H & _); [lia|lia|].
  rewrite H.
  replace (IZR 38 / IZR 20) with 1.90 by lra.
  replace (IZR 19 / IZR 20) with 0.95 by lra.
  reflexivity.
Defined.

Lemma configure_keeps_strengths (d : input_data) (self : PoissonCalculator) :
  home_attack_strength (snd (configure d self)) = home_attack_strength self /\
  away_attack_strength (snd (configure d self)) = away_attack_strength self.
Proof.
  destruct d; simpl; auto;
    unfold set_team_from_totals, set_team_from_totals_detailed, int_truediv;
    run_method;
    match goal with
    | |- context [Z.eqb ?hg 0] => destruct (Z.eqb hg 0); simpl; auto
    end;
    match goal with
    | |- context [Z.eqb ?ag 0] => destruct (Z.eqb ag 0); simpl; auto
    end.
Qed.

Lemma generate_market_analysis_unset (margin_percent : R)
    (self : PoissonCalculator) :
  home_attack_strength self = None ->
  generate_market_analysis margin_percent self =
  (Raise (ValueError
     "Strengths must be calculated before generating market analysis"), self).
Proof.
  intros H. unfold generate_market_analysis, all; run_method.
  rewrite H. reflexivity.
Qed.

(** C8.  On a new instance that has been configured, by any of the four
    configuration methods, and on which [calculate_strengths] has not run,
    [generate_market_analysis] raises the ValueError that names the missing
    step; it returns no table, and leaves the instance as it was. *)
Theorem market_analysis_needs_strengths (margin_percent : R)
    (d : input_data) :
  let self := snd (configure d init) in
  generate_market_analysis margin_percent self =
  (Raise (ValueError
     "Strengths must be calculated before generating market analysis"), self).
Proof.
  cbv zeta. apply generate_market_analysis_unset.
  destruct (configure_keeps_strengths d init) as (H & _).
  rewrite H. reflexivity.
Qed.

(** C10.  With a positive number of home games and no away game,
    [set_team_from_totals] and [set_team_from_totals_detailed] raise
    ZeroDivisionError after the two home averages have been written: the
    instance is left with the new home averages and with the away averages
    it had. *)
Theorem totals_configuration_is_not_atomic (self : PoissonCalculator)
    (home_games home_goals_scored home_goals_conceded
     away_goals_scored away_goals_conceded : Z)
    (league_avg league_home_for league_away_for : R) :
  (0 < home_games)%Z ->
  let written :=
    set_home_avg_goals_against (Some (IZR home_goals_conceded / IZR home_games))
      (set_home_avg_goals_for (Some (IZR home_goals_scored / IZR home_games))
         self) in
  set_team_from_totals home_games home_goals_scored home_goals_conceded
    0 away_goals_scored away_goals_conceded league_avg self =
    (Raise ZeroDivisionError, written) /\
  set_team_from_totals_detailed home_games home_goals_scored
    home_goals_conceded 0 away_goals_scored away_goals_conceded
    league_home_for league_away_for self =
    (Raise ZeroDivisionError, written) /\
  home_avg_goals_for written = Some (IZR home_goals_scored / IZR home_games) /\
  home_avg_goals_against written =
    Some (IZR home_goals_conceded / IZR home_games) /\
  away_avg_goals_for written = away_avg_goals_for self /\
  away_avg_goals_against written = away_avg_goals_against self.
Proof.
  intros Hh. cbv zeta.
  split; [|split; [|repeat split]].
  - unfold set_team_from_totals; run_method.
    rewrite !int_truediv_nonzero by lia. reflexivity.
  - unfold set_team_from_totals_detailed; run_method.
    rewrite !int_truediv_nonzero by lia. reflexivity.
Qed.

Lemma totals_configuration_is_not_atomic_witness :
  fst (set_team_from_totals 20 38 19 0 12 15 2.7
         (snd (set_team_averages 1.8 1.1 1.2 1.3 2.7 init))) =
    Raise ZeroDivisionError /\
  home_avg_goals_for
    (snd (set_team_from_totals 20 38 19 0 12 15 2.7
            (snd (set_team_averages 1.8 1.1 1.2 1.3 2.7 init)))) =
    Some (IZR 38 / IZR 20) /\
  away_avg_goals_for
    (snd (set_team_from_totals 20 38 19 0 12 15 2.7
            (snd (set_team_averages 1.8 1.1 1.2 1.3 2.7 init)))) =
    Some 1.2.
Proof.
  destruct (totals_configuration_is_not_atomic
              (snd (set_team_averages 1.8 1.1 1.2 1.3 2.7 init))
              20 38 19 12 15 2.7 1.5 1.2) as (H & _ & _).
  - lia.
  - rewrite H. repeat split.
Defined.

Lemma under_half_value (h a : R) (n : nat) :
  under_prob_of (_generate_scoreline_probabilities h a n) 0.5 =
  exp (- h) * exp (- a).
Proof.
  rewrite under_prob_of_half. unfold _poisson_pmf. simpl. field.
Qed.

Lemma exp_8_lower : 256 <= exp 8.
Proof.
  pose proof (exp_ineq1_le 1) as H1.
  assert (H2 : exp 2 = exp 1 * exp 1) by (rewrite <- exp_plus; f_equal; lra).
  assert (H4 : exp 4 = exp 2 * exp 2) by (rewrite <- exp_plus; f_equal; lra).
  assert (H8 : exp 8 = exp 4 * exp 4) by (rewrite <- exp_plus; f_equal; lra).
  assert (B2 : 4 <= exp 2) by (rewrite H2; nra).
  assert (B4 : 16 <= exp 4) by (rewrite H4; nra).
  rewrite H8; nra.
Qed.

Lemma exp_8_upper : exp 8 <= 6561.
Proof.
  pose proof exp_le_3 as H1. pose proof (exp_pos 1) as P1.
  assert (H2 : exp 2 = exp 1 * exp 1) by (rewrite <- exp_plus; f_equal; lra).
  assert (H4 : exp 4 = exp 2 * exp 2) by (rewrite <- exp_plus; f_equal; lra).
  assert (H8 : exp 8 = exp 4 * exp 4) by (rewrite <- exp_plus; f_equal; lra).
  assert (B2 : 0 < exp 2 <= 9) by (rewrite H2; nra).
  assert (B4 : 0 < exp 4 <= 81) by (rewrite H4; nra).
  rewrite H8; nra.
Qed.

Lemma exp_minus_8_bounds : 0 < exp (- (8)) <= / 256.
Proof.
  split; [apply exp_pos|].
  rewrite exp_Ropp. apply Rinv_le_contravar; [lra|apply exp_8_lower].
Qed.

(** C9, as stated, fails: for the averages 4, 4, 4, 4 and the league
    average 2, the under-probability of the threshold 0.5 is positive and
    prints as 0.00%, and its fair odds are finite, 1 over the probability,
    not infinite. *)
Lemma finite_odds_at_zero_percent :
  exists rows r,
    generate_market_analysis default_margin_percent
      (prepared high_scoring_match init) =
      (Return rows, prepared high_scoring_match init) /\
    In r rows /\
    Market r = 0.5 /\
    (Probability r = 0 \/ shows_as_zero_percent (Probability r)) /\
    Fair_Odds r = Finite (1 / Probability r) /\
    Fair_Odds r <> PosInf.
Proof.
  assert (Hv : valid high_scoring_match)
    by (unfold high_scoring_match; simpl; lra).
  assert (Hh : home_expected high_scoring_match = 8)
    by (unfold home_expected, high_scoring_match; simpl; lra).
  assert (Ha : away_expected high_scoring_match = 8)
    by (unfold away_expected, high_scoring_match; simpl; lra).
  pose proof exp_minus_8_bounds as (Hpos & Hsmall).
  assert (Hle : / 256 * / 256 * 100 < 0.005) by lra.
  assert (Hp : 0 < exp (- (8)) * exp (- (8)) /\
               exp (- (8)) * exp (- (8)) * 100 < 0.005) by nra.
  eexists. eexists.
  split; [now apply prepared_market_analysis|].
  rewrite Hh, Ha. unfold market_table, thresholds. cbn [map].
  split; [left; reflexivity|].
  cbn [Market Probability Fair_Odds market_row market_at
       under_probability under_odds].
  rewrite under_half_value. unfold odds_value.
  destruct (Rlt_dec 0 (exp (- (8)) * exp (- (8)))) as [_|Hn]; [|tauto].
  assert (Hq : 1 / (exp (- (8)) * exp (- (8))) = exp 8 * exp 8).
  { rewrite exp_Ropp. pose proof (exp_pos 8). field. lra. }
  rewrite round_overflow_finite.
  - split; [reflexivity|]. split; [right; split; lra|].
    split; [reflexivity|discriminate].
  - rewrite Hq. pose proof exp_8_upper. pose proof (exp_pos 8). nra.
Qed.

(** C9, amended.  The over/under results are always returned, no division
    error is raised.  The fair odds of a positive probability, also of one
    that is displayed as 0.00%, are 1 over it, unless that quotient leaves
    the binary64 range, where they are positive infinity; the fair odds of
    a probability that is zero, or not positive, are positive infinity: so
    for the under- and for the over-probability of each threshold. *)
Theorem fair_odds_of_probability (prob_matrix : matrix) :
  exists results,
    _calculate_over_under_probabilities prob_matrix = Return results /\
    map fst results = thresholds /\
    forall threshold data, In (threshold, data) results ->
      (0 < under_probability data ->
       1 / under_probability data < overflow_bound ->
       under_odds data = Finite (1 / under_probability data)) /\
      (0 < under_probability data ->
       overflow_bound <= 1 / under_probability data ->
       under_odds data = PosInf) /\
      (under_probability data <= 0 -> under_odds data = PosInf) /\
      (0 < over_probability data ->
       1 / over_probability data < overflow_bound ->
       over_odds data = Finite (1 / over_probability data)) /\
      (0 < over_probability data ->
       overflow_bound <= 1 / over_probability data ->
       over_odds data = PosInf) /\
      (over_probability data <= 0 -> over_odds data = PosInf).
Proof.
  eexists. split; [apply over_under_results|]. split; [reflexivity|].
  intros threshold data Hin. apply in_map_iff in Hin.
  destruct Hin as (t & Heq & _). inversion Heq; subst; clear Heq.
  cbn [market_at under_probability over_probability under_odds over_odds].
  apply odds_value_cases_pair.
Qed.


(** * Further properties of the engine *)

(** ** What [calculate_strengths] can do *)

Ltac split_attr :=
  repeat match goal with
         | |- context [truthy ?a] =>
             let E := fresh "E" in
             destruct a as [?x|] eqn:E; cbn [truthy];
             [match goal with
              | |- context [Req_dec_T ?y 0] => destruct (Req_dec_T y 0)
              end|]; cbn [negb andb]
         end.

Ltac rewrite_attrs :=
  repeat match goal with
         | H : _ = Some _ |- _ => rewrite H
         | H : _ = None |- _ => rewrite H
         end.

Lemma calculate_strengths_cases (self : PoissonCalculator) :
  (exists msg,
     calculate_strengths self = (Raise (ValueError msg), self)) \/
  (exists a b c d,
     calculate_strengths self = (Return tt, with_strengths a b c d self) /\
     a <> 0 /\ b <> 0 /\ c <> 0 /\ d <> 0).
Proof.
  unfold calculate_strengths, all; run_method.
  destruct (using_detailed_averages self); cbn [forallb]; split_attr;
    try (left; eexists; reflexivity).
  - right. simpl. rewrite_attrs. cbn [truediv].
    rewrite !float_truediv_nonzero by assumption.
    do 4 eexists. split; [reflexivity|].
    repeat split; apply div_nonzero; assumption.
  - right. simpl. rewrite_attrs. cbn [truediv].
    rewrite !float_truediv_nonzero by assumption.
    do 4 eexists. split; [reflexivity|].
    repeat split; apply div_nonzero; assumption.
Qed.

(** [calculate_strengths] either raises ValueError and leaves the instance
    as it was, or returns after writing the four strengths and nothing
    else; it raises no other exception. *)
Theorem calculate_strengths_outcomes (self : PoissonCalculator) :
  (exists msg,
     calculate_strengths self = (Raise (ValueError msg), self)) \/
  (exists a b c d,
     calculate_strengths self = (Return tt, with_strengths a b c d self)).
Proof.
  destruct (calculate_strengths_cases self)
    as [(msg & E)|(a & b & c & d & E & _)].
  - left. now exists msg.
  - right. now exists a, b, c, d.
Qed.

(** In simple mode, with the four team averages and the league average
    positive, [calculate_strengths] returns, writes each average divided by
    the one league average, and changes nothing else. *)
Theorem simple_strengths (self : PoissonCalculator) (hf ha af aa league_avg : R) :
  using_detailed_averages self = false ->
  home_avg_goals_for self = Some hf ->
  home_avg_goals_against self = Some ha ->
  away_avg_goals_for self = Some af ->
  away_avg_goals_against self = Some aa ->
  league_avg_goals self = Some league_avg ->
  0 < hf -> 0 < ha -> 0 < af -> 0 < aa -> 0 < league_avg ->
  exists self',
    calculate_strengths self = (Return tt, self') /\
    home_attack_strength self' = Some (hf / league_avg) /\
    home_defense_strength self' = Some (ha / league_avg) /\
    away_attack_strength self' = Some (af / league_avg) /\
    away_defense_strength self' = Some (aa / league_avg) /\
    home_avg_goals_for self' = Some hf /\
    home_avg_goals_against self' = Some ha /\
    away_avg_goals_for self' = Some af /\
    away_avg_goals_against self' = Some aa /\
    league_avg_goals self' = Some league_avg /\
    using_detailed_averages self' = false.
Proof.
  intros Hd H1 H2 H3 H4 Hl P1 P2 P3 P4 P5.
  eexists; split.
  - apply (calculate_strengths_simple self hf ha af aa league_avg);
      auto using pos_nonzero.
  - cbn. repeat split; assumption.
Qed.

Lemma simple_strengths_witness :
  exists self',
    calculate_strengths (snd (set_team_averages 1.8 1.1 1.2 1.3 2.7 init)) =
      (Return tt, self') /\
    home_attack_strength self' = Some (1.8 / 2.7) /\
    away_defense_strength self' = Some (1.3 / 2.7).
Proof.
  destruct (simple_strengths (snd (set_team_averages 1.8 1.1 1.2 1.3 2.7 init))
              1.8 1.1 1.2 1.3 2.7)
    as (s & H & Ha & _ & _ & Hd & _); try reflexivity; try lra.
  exists s. repeat split; assumption.
Defined.

(** Running [calculate_strengths] again after it has returned changes
    nothing: it returns again and leaves the same instance. *)
Theorem calculate_strengths_again (self self' : PoissonCalculator) :
  calculate_strengths self = (Return tt, self') ->
  calculate_strengths self' = (Return tt, self').
Proof.
  unfold calculate_strengths, all; run_method.
  destruct (using_detailed_averages self) eqn:Ed; cbn [forallb]; split_attr;
    try discriminate; simpl; rewrite_attrs; cbn [truediv];
    rewrite !float_truediv_nonzero by assumption;
    intros H; inversion H; subst self'; clear H;
    simpl; rewrite Ed; simpl; rewrite_attrs; simpl;
    repeat match goal with
           | |- context [Req_dec_T ?y 0] =>
               destruct (Req_dec_T y 0); [contradiction|]
           end;
    simpl; rewrite_attrs; cbn [truediv];
    rewrite !float_truediv_nonzero by assumption; reflexivity.
Qed.

Lemma calculate_strengths_again_witness :
  calculate_strengths (prepared sample_match init) =
  (Return tt, prepared sample_match init).
Proof.
  apply (calculate_strengths_again
           (snd (configure sample_match init)) (prepared sample_match init)).
  pose proof (prepared_spec sample_match init) as H.
  unfold prepared. rewrite H by (unfold sample_match; simpl; lra).
  unfold bind in H.
  change (configure sample_match init)
    with (Return tt, snd (configure sample_match init)) in H.
  cbv iota in H. rewrite H by (unfold sample_match; simpl; lra).
  reflexivity.
Defined.

(** ** The analysis methods *)

Lemma goal_expectancy_keeps (self : PoissonCalculator) :
  snd (_calculate_goal_expectancy self) = self.
Proof.
  unfold _calculate_goal_expectancy; run_method.
  destruct (negb _); [reflexivity|].
  destruct (using_detailed_averages self);
    destruct (mul3 _ _ _); try reflexivity;
    destruct (mul3 _ _ _); reflexivity.
Qed.

Lemma market_analysis_cases (margin_percent : R) (self : PoissonCalculator) :
  generate_market_analysis margin_percent self =
  if negb (all [home_attack_strength self; away_attack_strength self])
  then (Raise (ValueError
          "Strengths must be calculated before generating market analysis"),
        self)
  else match fst (_calculate_goal_expectancy self) with
       | Return (h, a) => (Return (market_table margin_percent h a), self)
       | Raise e => (Raise e, self)
       end.
Proof.
  pose proof (goal_expectancy_keeps self) as Hk.
  unfold generate_market_analysis; run_method.
  destruct (negb _); [reflexivity|].
  destruct (_calculate_goal_expectancy self) as [[[h a]|e] s];
    simpl in *; subst s; [|reflexivity].
  rewrite over_under_results. reflexivity.
Qed.

Lemma summary_info_cases (self : PoissonCalculator) :
  get_summary_info self =
  if negb (all [home_attack_strength self; away_attack_strength self])
  then (Raise (ValueError
          "Strengths must be calculated before getting summary info"), self)
  else match fst (_calculate_goal_expectancy self) with
       | Return (h, a) =>
           (Return {| Home_Team_Expected_Goals := h;
                      Away_Team_Expected_Goals := a;
                      Total_Expected_Goals := h + a;
                      Home_Attack_Strength := home_attack_strength self;
                      Home_Defense_Strength := home_defense_strength self;
                      Away_Attack_Strength := away_attack_strength self;
                      Away_Defense_Strength := away_defense_strength self |},
            self)
       | Raise e => (Raise e, self)
       end.
Proof.
  pose proof (goal_expectancy_keeps self) as Hk.
  unfold get_summary_info; run_method.
  destruct (negb _); [reflexivity|].
  destruct (_calculate_goal_expectancy self) as [[[h a]|e] s];
    simpl in *; subst s; reflexivity.
Qed.

Lemma summary_info_keeps (self : PoissonCalculator) :
  snd (get_summary_info self) = self.
Proof.
  rewrite summary_info_cases. destruct (negb _); [reflexivity|].
  destruct (fst (_calculate_goal_expectancy self)) as [[h a]|e]; reflexivity.
Qed.

Lemma market_analysis_keeps (margin_percent : R) (self : PoissonCalculator) :
  snd (generate_market_analysis margin_percent self) = self.
Proof.
  rewrite market_analysis_cases. destruct (negb _); [reflexivity|].
  destruct (fst (_calculate_goal_expectancy self)) as [[h a]|e]; reflexivity.
Qed.

(** The three analysis methods leave the instance as it was, whether they
    return or raise; so an analysis can be repeated and gives the same
    result. *)
Theorem analysis_keeps_instance (margin_percent : R)
    (self : PoissonCalculator) :
  snd (_calculate_goal_expectancy self) = self /\
  snd (get_summary_info self) = self /\
  snd (generate_market_analysis margin_percent self) = self /\
  generate_market_analysis margin_percent
    (snd (generate_market_analysis margin_percent self)) =
  generate_market_analysis margin_percent self.
Proof.
  pose proof (market_analysis_keeps margin_percent self) as Hm.
  split; [apply goal_expectancy_keeps|].
  split; [apply summary_info_keeps|].
  split; [exact Hm|]. now rewrite Hm.
Qed.



(** Whatever the instance, a table that [generate_market_analysis] returns
    has one row for each of the thresholds 0.5, 1.5, 2.5 and 3.5, in that
    order; in each row the over-probability is 1 minus the
    under-probability; the fair odds are infinite when the
    under-probability is not positive, and otherwise 1 over it, or
    infinite when that quotient leaves the binary64 range; the odds with
    margin are the fair odds times 1 + margin / 100 when the fair odds are
    finite and the product stays in the binary64 range, and infinite
    when the fair odds are infinite and 1 + margin / 100 is positive. *)
Theorem market_table_rows (margin_percent : R) (self : PoissonCalculator)
    (rows : list row) :
  fst (generate_market_analysis margin_percent self) = Return rows ->
  map Market rows = [0.5; 1.5; 2.5; 3.5] /\
  forall r, In r rows ->
    Opposite_Probability r = 1 - Probability r /\
    (0 < Probability r -> 1 / Probability r < overflow_bound ->
     Fair_Odds r = Finite (1 / Probability r)) /\
    (0 < Probability r -> overflow_bound <= 1 / Probability r ->
     Fair_Odds r = PosInf) /\
    (Probability r <= 0 -> Fair_Odds r = PosInf) /\
    (forall fair, Fair_Odds r = Finite fair ->
       - overflow_bound < fair * (1 + margin_percent / 100) < overflow_bound ->
       Odds_Margin r = Finite (fair * (1 + margin_percent / 100))) /\
    (Fair_Odds r = PosInf -> 0 < 1 + margin_percent / 100 ->
     Odds_Margin r = PosInf).
Proof.
  rewrite market_analysis_cases.
  destruct (negb _); [discriminate|].
  destruct (fst (_calculate_goal_expectancy self)) as [[h a]|e];
    [|discriminate].
  cbn [fst]. intros H; inversion H; subst; clear H.
  split; [reflexivity|].
  intros r Hr. unfold market_table in Hr.
  apply in_map_iff in Hr. destruct Hr as ([t data] & <- & Hin).
  apply in_map_iff in Hin. destruct Hin as (t' & Heq & _).
  inversion Heq; subst; clear Heq.
  cbn [market_row Probability Opposite_Probability Fair_Odds Odds_Margin
       market_at under_probability over_probability under_odds].
  split; [reflexivity|].
  match goal with
  | |- context [odds_value ?p] =>
      destruct (odds_value_cases p) as (A & B & C)
  end.
  split; [exact A|]. split; [exact B|]. split; [exact C|].
  unfold _apply_margin. split.
  - intros fair -> Hrange. unfold pyfloat_mul, round_overflow.
    destruct (Rle_dec overflow_bound (fair * (1 + margin_percent / 100)));
      [exfalso; lra|].
    destruct (Rle_dec (fair * (1 + margin_percent / 100)) (- overflow_bound));
      [exfalso; lra|]. reflexivity.
  - intros -> Hm. unfold pyfloat_mul.
    destruct (Rlt_dec 0 (1 + margin_percent / 100)); [reflexivity|tauto].
Qed.

Lemma market_table_rows_witness :
  exists rows,
    fst (generate_market_analysis 3 (prepared sample_match init)) =
      Return rows /\
    map Market rows = [0.5; 1.5; 2.5; 3.5].
Proof.
  assert (Hv : valid sample_match) by (unfold sample_match; simpl; lra).
  pose proof (prepared_market_analysis 3 sample_match init Hv) as H.
  eexists. split; [rewrite H; reflexivity|].
  apply (market_table_rows 3 (prepared sample_match init)).
  rewrite H; reflexivity.
Defined.

(** ** Configuring, then analysing *)

Lemma bind_prepared {B : Type} (d : input_data) (self : PoissonCalculator)
    (k : method B) :
  valid d ->
  (configure d ;;; calculate_strengths ;;; k) self = k (prepared d self).
Proof.
  intros Hv. pose proof (prepared_spec d self Hv) as H.
  unfold prepared. unfold bind in *.
  destruct (configure d self) as [[u|e] s1]; [|discriminate].
  destruct (calculate_strengths s1) as [[u'|e'] s2]; [reflexivity|discriminate].
Qed.

(** ** Configuration from totals *)

(** With numbers of games that are not zero, [set_team_from_totals_detailed]
    leaves the instance as [set_team_averages_detailed] does on the
    averages goals / games, so that the strengths computed next are the
    same. *)
Theorem totals_detailed_equal_averages (self : PoissonCalculator)
    (home_games home_goals_scored home_goals_conceded
     away_games away_goals_scored away_goals_conceded : Z)
    (league_home_for league_away_for : R) :
  home_games <> 0%Z -> away_games <> 0%Z ->
  set_team_from_totals_detailed home_games home_goals_scored
    home_goals_conceded away_games away_goals_scored away_goals_conceded
    league_home_for league_away_for self =
  set_team_averages_detailed
    (IZR home_goals_scored / IZR home_games)
    (IZR home_goals_conceded / IZR home_games)
    (IZR away_goals_scored / IZR away_games)
    (IZR away_goals_conceded / IZR away_games)
    league_home_for league_away_for self /\
  (set_team_from_totals_detailed home_games home_goals_scored
     home_goals_conceded away_games away_goals_scored away_goals_conceded
     league_home_for league_away_for ;;; calculate_strengths) self =
  (set_team_averages_detailed
     (IZR home_goals_scored / IZR home_games)
     (IZR home_goals_conceded / IZR home_games)
     (IZR away_goals_scored / IZR away_games)
     (IZR away_goals_conceded / IZR away_games)
     league_home_for league_away_for ;;; calculate_strengths) self.
Proof.
  intros Hh Ha.
  assert (E : set_team_from_totals_detailed home_games home_goals_scored
                home_goals_conceded away_games away_goals_scored
                away_goals_conceded league_home_for league_away_for self =
              set_team_averages_detailed
                (IZR home_goals_scored / IZR home_games)
                (IZR home_goals_conceded / IZR home_games)
                (IZR away_goals_scored / IZR away_games)
                (IZR away_goals_conceded / IZR away_games)
                league_home_for league_away_for self).
  { unfold set_team_from_totals_detailed, set_team_averages_detailed;
      run_method.
    rewrite !int_truediv_nonzero by assumption. reflexivity. }
  split; [exact E|]. apply bind_congr. exact E.
Qed.

Lemma totals_detailed_equal_averages_witness :
  set_team_from_totals_detailed 20 38 19 18 21 27 1.5 1.2 init =
  set_team_averages_detailed (IZR 38 / IZR 20) (IZR 19 / IZR 20)
    (IZR 21 / IZR 18) (IZR 27 / IZR 18) 1.5 1.2 init.
Proof.
  apply (totals_detailed_equal_averages init 20 38 19 18 21 27 1.5 1.2); lia.
Defined.

(** [set_team_from_totals] and [set_team_from_totals_detailed] return
    exactly when neither number of games is 0, and raise ZeroDivisionError
    otherwise; with no home game they fail at their first statement and
    leave the instance as it was. *)
Theorem totals_outcomes (self : PoissonCalculator)
    (home_games home_goals_scored home_goals_conceded
     away_games away_goals_scored away_goals_conceded : Z)
    (league_avg league_home_for league_away_for : R) :
  let simple :=
    set_team_from_totals home_games home_goals_scored home_goals_conceded
      away_games away_goals_scored away_goals_conceded league_avg self in
  let detailed :=
    set_team_from_totals_detailed home_games home_goals_scored
      home_goals_conceded away_games away_goals_scored away_goals_conceded
      league_home_for league_away_for self in
  fst simple =
    (if (home_games =? 0)%Z || (away_games =? 0)%Z
     then Raise ZeroDivisionError else Return tt) /\
  fst detailed = fst simple /\
  (home_games = 0%Z -> snd simple = self /\ snd detailed = self).
Proof.
  cbv zeta.
  unfold set_team_from_totals, set_team_from_totals_detailed, int_truediv;
    run_method.
  destruct (Z.eqb_spec home_games 0) as [->|Hh];
    destruct (Z.eqb_spec away_games 0) as [->|Ha]; simpl;
    repeat split; try reflexivity; intros; congruence.
Qed.

(** ** Reusing one instance *)

Lemma calculate_strengths_simple_league (self self' : PoissonCalculator) :
  calculate_strengths self = (Return tt, self') ->
  using_detailed_averages self = false ->
  league_avg_goals self <> None.
Proof.
  unfold calculate_strengths, all; run_method.
  intros H Hd. rewrite Hd in H. cbn [forallb] in H.
  destruct (league_avg_goals self); [discriminate|].
  exfalso. revert H.
  destruct (truthy (home_avg_goals_for self)); [|discriminate].
  destruct (truthy (home_avg_goals_against self)); [|discriminate].
  destruct (truthy (away_avg_goals_for self)); [|discriminate].
  destruct (truthy (away_avg_goals_against self)); discriminate.
Qed.

Lemma consistent_init : consistent init.
Proof. unfold consistent; simpl. repeat split; congruence. Qed.

Lemma consistent_after_call (c : call) (self : PoissonCalculator) :
  consistent self -> consistent (after_call c self).
Proof.
  intros (H1 & H2 & H3 & H4). destruct c; cbn [after_call].
  - unfold consistent; simpl. repeat split; congruence.
  - unfold consistent; simpl. repeat split; congruence.
  - unfold set_team_from_totals, int_truediv; run_method.
    destruct (Z.eqb hg 0); simpl; [unfold consistent; tauto|].
    destruct (Z.eqb ag 0); simpl; [unfold consistent; simpl; tauto|].
    unfold consistent; simpl. repeat split; congruence.
  - unfold set_team_from_totals_detailed, int_truediv; run_method.
    destruct (Z.eqb hg 0); simpl; [unfold consistent; tauto|].
    destruct (Z.eqb ag 0); simpl; [unfold consistent; simpl; tauto|].
    unfold consistent; simpl. repeat split; congruence.
  - destruct (calculate_strengths_cases self)
      as [(msg & E)|(a & b & c & d & E & _)]; rewrite E; cbn [snd].
    + unfold consistent; tauto.
    + pose proof (calculate_strengths_simple_league self _ E) as Hl.
      unfold consistent; cbn. tauto.
  - rewrite summary_info_keeps. unfold consistent; tauto.
  - rewrite market_analysis_keeps. unfold consistent; tauto.
Qed.

Lemma consistent_after_calls (cs : list call) (self : PoissonCalculator) :
  consistent self -> consistent (after_calls cs self).
Proof.
  unfold after_calls. revert self.
  induction cs as [|c cs IH]; intros self H; simpl; [exact H|].
  apply IH. now apply consistent_after_call.
Qed.

Lemma goal_expectancy_consistent (self : PoissonCalculator) :
  consistent self ->
  returns_or_value_error (fst (_calculate_goal_expectancy self)).
Proof.
  intros (H1 & H2 & _). unfold _calculate_goal_expectancy, all; run_method.
  cbn [forallb].
  destruct (home_attack_strength self) as [a|] eqn:Ea; [|exact I].
  destruct (truthy (Some a)); [|exact I].
  destruct (home_defense_strength self) as [b|] eqn:Eb; [|exact I].
  destruct (truthy (Some b)); [|exact I].
  destruct (away_attack_strength self) as [c|] eqn:Ec; [|exact I].
  destruct (truthy (Some c)); [|exact I].
  destruct (away_defense_strength self) as [d|] eqn:Ed; [|exact I].
  destruct (truthy (Some d)); [|exact I].
  cbn [andb negb].
  destruct (using_detailed_averages self) eqn:Em; rewrite Ea, Eb, Ec, Ed.
  - destruct (H1 eq_refl) as (L1 & L2).
    destruct (league_home_goals_for self); [|congruence].
    destruct (league_away_goals_for self); [|congruence].
    exact I.
  - assert (L : league_avg_goals self <> None)
      by (apply H2; [reflexivity|discriminate]).
    destruct (league_avg_goals self); [|congruence]. exact I.
Qed.

(** On an instance reached from a new one by any calls of the public
    methods, in any order and whether they returned or raised,
    [calculate_strengths], [_calculate_goal_expectancy] and
    [get_summary_info] return or raise ValueError: they raise no division
    or type error; and the league's conceding averages mirror its scoring
    averages. *)
Theorem reached_instances_are_safe (cs : list call) :
  let self := after_calls cs init in
  returns_or_value_error (fst (calculate_strengths self)) /\
  returns_or_value_error (fst (_calculate_goal_expectancy self)) /\
  returns_or_value_error (fst (get_summary_info self)) /\
  league_home_goals_against self = league_away_goals_for self /\
  league_away_goals_against self = league_home_goals_for self.
Proof.
  cbv zeta.
  pose proof (consistent_after_calls cs init consistent_init) as Hc.
  pose proof (goal_expectancy_consistent _ Hc) as He.
  destruct Hc as (_ & _ & H3 & H4).
  split; [|split; [exact He|split; [|split; assumption]]].
  - destruct (calculate_strengths_cases (after_calls cs init))
      as [(msg & E)|(a & b & c & d & E & _)]; rewrite E; exact I.
  - rewrite summary_info_cases. destruct (negb _); [exact I|].
    destruct (fst (_calculate_goal_expectancy (after_calls cs init)))
      as [[h a]|e]; [exact I|exact He].
Qed.

Lemma prepared_strengths (d : input_data) (self : PoissonCalculator) :
  valid d ->
  prepared d self =
  with_strengths (home_for d / league_home d) (home_against d / league_away d)
    (away_for d / league_away d) (away_against d / league_home d)
    (snd (configure d self)).
Proof.
  intros Hv. unfold prepared. now rewrite prepared_spec.
Qed.

(** The configuration methods do not reset the strengths: after a simple
    configuration with positive inputs and [calculate_strengths], a second
    [set_team_averages] that is not followed by [calculate_strengths]
    leaves the analysis working on the strengths of the first
    configuration and on the league average of the second; the team
    averages of the second configuration are not used. *)
Theorem strengths_survive_reconfiguration (margin_percent : R)
    (self : PoissonCalculator) (hf0 ha0 af0 aa0 l0 hf ha af aa l : R) :
  0 < hf0 -> 0 < ha0 -> 0 < af0 -> 0 < aa0 -> 0 < l0 ->
  let h := hf0 / l0 * (aa0 / l0) * l in
  let a := af0 / l0 * (ha0 / l0) * l in
  fst ((set_team_averages hf0 ha0 af0 aa0 l0 ;;; calculate_strengths ;;;
        set_team_averages hf ha af aa l ;;; _calculate_goal_expectancy) self) =
    Return (h, a) /\
  fst ((set_team_averages hf0 ha0 af0 aa0 l0 ;;; calculate_strengths ;;;
        set_team_averages hf ha af aa l ;;;
        generate_market_analysis margin_percent) self) =
    Return (market_table margin_percent h a).
Proof.
  intros P1 P2 P3 P4 P5. cbv zeta.
  assert (Hv : valid (averages hf0 ha0 af0 aa0 l0)) by (simpl; tauto).
  pose proof (prepared_strengths (averages hf0 ha0 af0 aa0 l0) self Hv) as Hp.
  cbn [home_for home_against away_for away_against league_home league_away]
    in Hp.
  assert (He : forall s,
    s = snd (set_team_averages hf ha af aa l
               (prepared (averages hf0 ha0 af0 aa0 l0) self)) ->
    _calculate_goal_expectancy s =
    (Return (hf0 / l0 * (aa0 / l0) * l, af0 / l0 * (ha0 / l0) * l), s)).
  { intros s ->. rewrite Hp.
    apply goal_expectancy_simple; try reflexivity;
      apply div_nonzero; lra. }
  split.
  - pose proof (bind_prepared (averages hf0 ha0 af0 aa0 l0) self
        (set_team_averages hf ha af aa l ;;; _calculate_goal_expectancy) Hv)
      as Hb.
    cbn [configure] in Hb. rewrite Hb.
    unfold bind at 1. cbn [set_team_averages].
    change (set_team_averages hf ha af aa l
              (prepared (averages hf0 ha0 af0 aa0 l0) self))
      with (Return tt,
            snd (set_team_averages hf ha af aa l
                   (prepared (averages hf0 ha0 af0 aa0 l0) self))).
    cbv iota. rewrite (He _ eq_refl). reflexivity.
  - pose proof (bind_prepared (averages hf0 ha0 af0 aa0 l0) self
        (set_team_averages hf ha af aa l ;;;
         generate_market_analysis margin_percent) Hv) as Hb.
    cbn [configure] in Hb. rewrite Hb.
    unfold bind at 1.
    change (set_team_averages hf ha af aa l
              (prepared (averages hf0 ha0 af0 aa0 l0) self))
      with (Return tt,
            snd (set_team_averages hf ha af aa l
                   (prepared (averages hf0 ha0 af0 aa0 l0) self))).
    cbv iota.
    rewrite (generate_market_analysis_ready margin_percent _
               (hf0 / l0 * (aa0 / l0) * l) (af0 / l0 * (ha0 / l0) * l)).
    + reflexivity.
    + rewrite Hp. cbn. apply truthy_nonzero, div_nonzero; lra.
    + rewrite Hp. cbn. apply truthy_nonzero, div_nonzero; lra.
    + apply He. reflexivity.
Qed.

Lemma strengths_survive_reconfiguration_witness :
  fst ((set_team_averages 1.8 1.1 1.2 1.3 2.7 ;;; calculate_strengths ;;;
        set_team_averages 3 3 3 3 2 ;;; _calculate_goal_expectancy) init) =
  Return (1.8 / 2.7 * (1.3 / 2.7) * 2, 1.2 / 2.7 * (1.1 / 2.7) * 2).
Proof.
  apply (strengths_survive_reconfiguration 3 init 1.8 1.1 1.2 1.3 2.7
           3 3 3 3 2); lra.
Defined.

(** ** One calculation does not depend on the ones before *)

Lemma configure_fst (d : input_data) (s1 s2 : PoissonCalculator) :
  fst (configure d s1) = fst (configure d s2).
Proof.
  destruct d; cbn [configure]; try reflexivity;
    unfold set_team_from_totals, set_team_from_totals_detailed, int_truediv;
    run_method;
    repeat match goal with
           | |- context [Z.eqb ?g 0] => destruct (Z.eqb g 0); simpl
           end; reflexivity.
Qed.

Lemma configure_holds (d : input_data) (s : PoissonCalculator) :
  fst (configure d s) = Return tt -> holds d (snd (configure d s)).
Proof.
  destruct d; cbn [configure]; unfold holds;
    unfold set_team_from_totals, set_team_from_totals_detailed, int_truediv;
    run_method;
    repeat match goal with
           | |- context [Z.eqb ?g 0] => destruct (Z.eqb g 0); simpl
           end; try discriminate; intros _; repeat split.
Qed.

Lemma strengths_same (d : input_data) (s1 s2 : PoissonCalculator) :
  holds d s1 -> holds d s2 ->
  (exists msg,
     calculate_strengths s1 = (Raise (ValueError msg), s1) /\
     calculate_strengths s2 = (Raise (ValueError msg), s2)) \/
  (exists a b c e,
     calculate_strengths s1 = (Return tt, with_strengths a b c e s1) /\
     calculate_strengths s2 = (Return tt, with_strengths a b c e s2) /\
     a <> 0 /\ b <> 0 /\ c <> 0 /\ e <> 0).
Proof.
  unfold holds.
  intros (A1 & A2 & A3 & A4 & A5 & A6) (B1 & B2 & B3 & B4 & B5 & B6).
  unfold calculate_strengths, all; run_method.
  rewrite A5, B5. destruct (detailed d).
  - destruct A6 as (A6 & A7 & A8 & A9). destruct B6 as (B6 & B7 & B8 & B9).
    rewrite A1, A2, A3, A4, A6, A7, A8, A9, B1, B2, B3, B4, B6, B7, B8, B9.
    cbn [forallb truthy].
    repeat match goal with
           | |- context [Req_dec_T ?y 0] =>
               destruct (Req_dec_T y 0);
               [left; eexists; split; reflexivity|]
           end.
    right. simpl.
    rewrite A1, A2, A3, A4, A6, A7, B1, B2, B3, B4, B6, B7. cbn [truediv].
    rewrite !float_truediv_nonzero by assumption.
    do 4 eexists. split; [reflexivity|]. split; [reflexivity|].
    repeat split; apply div_nonzero; assumption.
  - rewrite A1, A2, A3, A4, A6, B1, B2, B3, B4, B6.
    cbn [forallb truthy].
    repeat match goal with
           | |- context [Req_dec_T ?y 0] =>
               destruct (Req_dec_T y 0);
               [left; eexists; split; reflexivity|]
           end.
    right. simpl.
    rewrite A1, A2, A3, A4, A6, B1, B2, B3, B4, B6. cbn [truediv].
    rewrite !float_truediv_nonzero by assumption.
    do 4 eexists. split; [reflexivity|]. split; [reflexivity|].
    repeat split; apply div_nonzero; assumption.
Qed.

Lemma goal_expectancy_holds (d : input_data) (s : PoissonCalculator)
    (a b c e : R) :
  holds d s -> a <> 0 -> b <> 0 -> c <> 0 -> e <> 0 ->
  _calculate_goal_expectancy (with_strengths a b c e s) =
  (Return (a * e * league_home d, c * b * league_away d),
   with_strengths a b c e s).
Proof.
  unfold holds. intros (_ & _ & _ & _ & A5 & A6) Na Nb Nc Ne.
  destruct (detailed d) eqn:Ed.
  - destruct A6 as (A6 & A7 & _).
    apply goal_expectancy_detailed; auto.
  - assert (Heq : league_away d = league_home d)
      by (destruct d; simpl in *; congruence).
    rewrite Heq. apply goal_expectancy_simple; auto.
Qed.

Lemma analysis_tail (margin_percent : R) (s : PoissonCalculator) :
  fst ((summary_info <- get_summary_info ;;
        market_results <- generate_market_analysis margin_percent ;;
        ret (summary_info, market_results)) s) =
  match fst (get_summary_info s) with
  | Return info =>
      match fst (generate_market_analysis margin_percent s) with
      | Return rows => Return (info, rows)
      | Raise e => Raise e
      end
  | Raise e => Raise e
  end.
Proof.
  pose proof (summary_info_keeps s) as Hs.
  unfold bind, ret.
  destruct (get_summary_info s) as [[info|e] s']; cbn [fst snd] in *;
    [subst s'|reflexivity].
  destruct (generate_market_analysis margin_percent s) as [[rows|e] s'];
    reflexivity.
Qed.

Lemma bind_fst {A B : Type} (c : method A) (k : A -> method B)
    (s : PoissonCalculator) :
  fst (bind c k s) =
  match fst (c s) with
  | Return a => fst (k a (snd (c s)))
  | Raise e => Raise e
  end.
Proof. unfold bind. destruct (c s) as [[a|e] s']; reflexivity. Qed.

(** What [calculate_probabilities] returns or raises for some input is the
    same on an instance that has been used, for any calculations, and on a
    new one: no attribute left by an earlier calculation is read. *)
Theorem calculation_ignores_history (d : input_data)
    (self : PoissonCalculator) :
  fst (calculate_probabilities d self) = fst (calculate_probabilities d init).
Proof.
  unfold calculate_probabilities.
  rewrite (bind_fst (configure d) _ self), (bind_fst (configure d) _ init).
  rewrite (configure_fst d self init).
  pose proof (configure_holds d self) as H1.
  pose proof (configure_holds d init) as H2.
  rewrite (configure_fst d self init) in H1.
  destruct (fst (configure d init)) as [[]|err]; [|reflexivity].
  specialize (H1 eq_refl). specialize (H2 eq_refl).
  rewrite (bind_fst calculate_strengths _ (snd (configure d self))),
    (bind_fst calculate_strengths _ (snd (configure d init))).
  destruct (strengths_same d _ _ H1 H2)
    as [(msg & E1 & E2)|(a & b & c & e & E1 & E2 & Na & Nb & Nc & Ne)];
    rewrite E1, E2; cbn [fst snd]; [reflexivity|].
  rewrite !analysis_tail.
  rewrite !summary_info_cases, !market_analysis_cases.
  rewrite !(goal_expectancy_holds d) by assumption.
  unfold all. cbn -[market_table truthy].
  rewrite !truthy_nonzero by assumption. reflexivity.
Qed.

(** ** Analysis before the strengths *)

(** On a new instance that has been configured, by any of the four
    configuration methods, and on which [calculate_strengths] has not run,
    [get_summary_info] and [_calculate_goal_expectancy] raise ValueError,
    each with its own message, and leave the instance as it was. *)
Theorem analysis_needs_strengths (d : input_data) :
  let self := snd (configure d init) in
  get_summary_info self =
    (Raise (ValueError
       "Strengths must be calculated before getting summary info"), self) /\
  _calculate_goal_expectancy self =
    (Raise (ValueError "Strengths must be calculated before goal expectancy"),
     self).
Proof.
  cbv zeta. destruct (configure_keeps_strengths d init) as (H & _).
  cbn [home_attack_strength init] in H. split.
  - rewrite summary_info_cases. unfold all. cbn [forallb].
    rewrite H. reflexivity.
  - unfold _calculate_goal_expectancy, all; run_method.
    rewrite H. reflexivity.
Qed.
